(** * address-to-latlon: the row-processing pipeline of [src/app/page.tsx]

    A shallow embedding of the page component [Home]: its React state, the
    handlers [handleFileChange], [handleProcess], [geocodeAddress],
    [buildExportRows], [handleDownload] and the two inline [onChange]
    handlers (encoding select, column check boxes), followed by the
    properties of the specification that concern them.

    Conventions.
    - A JavaScript string is a Rocq [string] holding its UTF-8 bytes, so the
      literals of the source appear here as they are written there.
    - A row is a JavaScript object used as a record: an association list in
      own-property order.  Every key the program writes is a non-index
      string, for which "assign" is: overwrite in place, or append.
    - Numbers are kept behind two interfaces.  Cell values and coordinates
      are only copied, tested for truthiness and converted to text
      ([JSNumber]); the percentage is computed with division,
      multiplication and [Math.round] on doubles ([JSArith]).
    - The browser and the libraries ([FileReader], [TextDecoder],
      [Papa.parse], the community geocoder) are the environment: each
      handler receives what they deliver as an argument. *)

From Stdlib Require Import String Ascii List ZArith Lia Bool.
From Stdlib Require Import QArith Qround.
From Stdlib Require Import Floats.
Import ListNotations.
Local Close Scope Q_scope.
Local Open Scope string_scope.
Local Open Scope list_scope.

(** ** JavaScript strings *)

Module JSString.

(** One-byte white space and line terminators: U+0009..U+000D, U+0020. *)
Definition ws1 (a : ascii) : bool :=
  let x := N_of_ascii a in
  (((9 <=? x) && (x <=? 13)) || (x =? 32))%N.

(** U+00A0, encoded C2 A0. *)
Definition ws2 (a b : ascii) : bool :=
  ((N_of_ascii a =? 194) && (N_of_ascii b =? 160))%N.

(** The three-byte ones: U+1680, U+2000..U+200A, U+2028, U+2029, U+202F,
    U+205F, U+3000 and U+FEFF. *)
Definition ws3 (a b c : ascii) : bool :=
  let x := N_of_ascii a in
  let y := N_of_ascii b in
  let z := N_of_ascii c in
  (((x =? 225) && (y =? 154) && (z =? 128))
   || ((x =? 226) && (y =? 128)
       && (((128 <=? z) && (z <=? 138)) || (z =? 168) || (z =? 169) || (z =? 175)))
   || ((x =? 226) && (y =? 129) && (z =? 159))
   || ((x =? 227) && (y =? 128) && (z =? 128))
   || ((x =? 239) && (y =? 187) && (z =? 191)))%N.

(** Drops the white space at the head of a byte sequence.  With
    [fwd = false] the sequence is a reversed string, and the bytes of a
    character arrive last byte first. *)
Fixpoint skip_ws (fwd : bool) (l : list ascii) : list ascii :=
  match l with
  | [] => []
  | a :: l1 =>
      if ws1 a then skip_ws fwd l1
      else
        match l1 with
        | [] => l
        | b :: l2 =>
            if (if fwd then ws2 a b else ws2 b a) then skip_ws fwd l2
            else
              match l2 with
              | [] => l
              | c :: l3 =>
                  if (if fwd then ws3 a b c else ws3 c b a)
                  then skip_ws fwd l3
                  else l
              end
        end
  end.

(** [String.prototype.trim]. *)
Definition trim (s : string) : string :=
  string_of_list_ascii
    (rev (skip_ws false (rev (skip_ws true (list_ascii_of_string s))))).

(** [s.length > 0], which is also the truthiness of a string. *)
Definition nonempty (s : string) : bool :=
  match s with
  | EmptyString => false
  | String _ _ => true
  end.

(** [Array.prototype.join]. *)
Definition join (sep : string) (parts : list string) : string :=
  String.concat sep parts.

End JSString.
Import JSString.

(** ** Numbers *)

(** What the program does with a number it did not compute: convert it to
    text ([String(value)], template literals) and test its truthiness. *)
Class JSNumber : Type := {
  number : Type;
  Number_toString : number -> string;
  Number_toBoolean : number -> bool
}.

(** The double arithmetic of the percentage
    [Math.round(((i + 1) / rows.length) * 100)]: the doubles themselves,
    the conversion of a count, division, multiplication, the order, and
    [Math.round], whose result on the finite values met here is an
    integer. *)
Class JSArith : Type := {
  double : Type;
  double_of_nat : nat -> double;
  double_div : double -> double -> double;
  double_mul : double -> double -> double;
  double_le : double -> double -> Prop;
  Math_round : double -> Z
}.

(** Numbers written as their canonical text ([ToString] tells two doubles
    apart, the two zeros excepted): enough for values that are only
    copied, tested and printed. *)
Definition rendered_number : JSNumber := {|
  number := string;
  Number_toString := fun s => s;
  Number_toBoolean := fun s => negb (String.eqb s "0" || String.eqb s "NaN")
|}.


(** [Math.round] on a binary64 value [m * 2^e]: the nearest integer, the
    upper one at a tie. *)
Definition float_round (x : float) : Z :=
  match Prim2SF x with
  | S754_finite s m e =>
      let v := if s then Z.neg m else Z.pos m in
      if (0 <=? e)%Z then (v * 2 ^ e)%Z
      else ((2 * v + 2 ^ (- e)) / 2 ^ (1 - e))%Z
  | _ => 0%Z
  end.

(** Binary64 arithmetic itself, on the kernel's floats.  A count is
    converted through a 63-bit integer: exactly for the lengths an array
    can have. *)
Definition binary64_arith : JSArith := {|
  double := float;
  double_of_nat := fun n => PrimFloat.of_uint63 (Uint63.of_Z (Z.of_nat n));
  double_div := PrimFloat.div;
  double_mul := PrimFloat.mul;
  double_le := fun x y => PrimFloat.leb x y = true;
  Math_round := float_round
|}.

(** ** Promises, files, formats *)

(** A promise, by how it settles: with a value, with a reason, or never. *)
Inductive promise (A : Type) : Type :=
| resolved (a : A)
| rejected (reason : string)
| pending.
Arguments resolved {A} a.
Arguments rejected {A} reason.
Arguments pending {A}.

(** The chosen [File]: the program reads its name; its content reaches the
    handlers through the reader. *)
Record File : Type := { name : string }.

(** [coordinateFormat]. *)
Inductive format : Type := separate | combined.

(** ** Rows *)

Section Page.

Context {JSN : JSNumber} {JSA : JSArith}.

(** The values of [GeocodedRow]: [string | number]; [undefined] is the
    absence of the property. *)
Inductive value : Type :=
| VString (s : string)
| VNumber (n : number).

Definition GeocodedRow : Type := list (string * value).

(** [row[key]]. *)
Fixpoint prop_get (key : string) (row : GeocodedRow) : option value :=
  match row with
  | [] => None
  | (k, v) :: rest => if String.eqb k key then Some v else prop_get key rest
  end.

(** [row[key] = v] on a copy: in place when the key exists, appended
    otherwise. *)
Fixpoint prop_set (key : string) (v : value) (row : GeocodedRow) : GeocodedRow :=
  match row with
  | [] => [(key, v)]
  | (k, w) :: rest =>
      if String.eqb k key then (k, v) :: rest else (k, w) :: prop_set key v rest
  end.

(** The copy of [row] without [key], as a rest pattern makes it. *)
Definition prop_delete (key : string) (row : GeocodedRow) : GeocodedRow :=
  filter (fun kv => negb (String.eqb (fst kv) key)) row.

(** [{ ...row, k1: v1, k2: v2, ... }]. *)
Definition spread (row : GeocodedRow) (props : list (string * value)) : GeocodedRow :=
  fold_left (fun o kv => prop_set (fst kv) (snd kv) o) props row.

(** [Object.keys(row)]. *)
Definition Object_keys (row : GeocodedRow) : list string := map fst row.

(** Truthiness of [row[col]]. *)
Definition ToBoolean (v : option value) : bool :=
  match v with
  | None => false
  | Some (VString s) => nonempty s
  | Some (VNumber n) => Number_toBoolean n
  end.

(** [String(value)]. *)
Definition ToString (v : value) : string :=
  match v with
  | VString s => s
  | VNumber n => Number_toString n
  end.

(** [typeof v === "number"]. *)
Definition is_number (v : option value) : bool :=
  match v with
  | Some (VNumber _) => true
  | _ => false
  end.

(** ** The geocoder *)

(** The argument of the success callback of [getLatLng]. *)
Record GeocoderResult : Type := {
  lat : number;
  lng : number;
  level : number;
  pref : string;
  city : string;
  town : string;
  addr : string
}.

(** What a call of the global [getLatLng] does first: invoke the success
    callback, invoke the error callback, raise an exception before it
    returns, or none of these, ever. *)
Inductive reaction : Type :=
| invokes_callback (result : GeocoderResult)
| invokes_errorCallback
| throws (reason : string)
| stays_silent.

(** The geocoder script: its reaction to the [n]-th call of a run, made
    with a given address. *)
Definition geocoder : Type := nat -> string -> reaction.

(** The object [{ lat, lng }] that [geocodeAddress] resolves with. *)
Record coords : Type := { coords_lat : number; coords_lng : number }.

(** ** React state *)

Record State : Type := {
  file : option File;
  data : list GeocodedRow;
  addressColumns : list string;
  columns : list string;
  loading : bool;
  progress : Z;
  error : string;
  success : bool;
  geocoderReady : bool;
  inputEncoding : string;
  coordinateFormat : format
}.

(** The state of the first render. *)
Definition initial : State := {|
  file := None; data := []; addressColumns := []; columns := [];
  loading := false; progress := 0; error := ""; success := false;
  geocoderReady := false; inputEncoding := "UTF-8";
  coordinateFormat := separate
|}.

Definition setFile (x : option File) (s : State) : State :=
  {| file := x; data := data s; addressColumns := addressColumns s;
     columns := columns s; loading := loading s; progress := progress s;
     error := error s; success := success s;
     geocoderReady := geocoderReady s; inputEncoding := inputEncoding s;
     coordinateFormat := coordinateFormat s |}.

Definition setData (x : list GeocodedRow) (s : State) : State :=
  {| file := file s; data := x; addressColumns := addressColumns s;
     columns := columns s; loading := loading s; progress := progress s;
     error := error s; success := success s;
     geocoderReady := geocoderReady s; inputEncoding := inputEncoding s;
     coordinateFormat := coordinateFormat s |}.

Definition setAddressColumns (x : list string) (s : State) : State :=
  {| file := file s; data := data s; addressColumns := x;
     columns := columns s; loading := loading s; progress := progress s;
     error := error s; success := success s;
     geocoderReady := geocoderReady s; inputEncoding := inputEncoding s;
     coordinateFormat := coordinateFormat s |}.

Definition setColumns (x : list string) (s : State) : State :=
  {| file := file s; data := data s; addressColumns := addressColumns s;
     columns := x; loading := loading s; progress := progress s;
     error := error s; success := success s;
     geocoderReady := geocoderReady s; inputEncoding := inputEncoding s;
     coordinateFormat := coordinateFormat s |}.

Definition setLoading (x : bool) (s : State) : State :=
  {| file := file s; data := data s; addressColumns := addressColumns s;
     columns := columns s; loading := x; progress := progress s;
     error := error s; success := success s;
     geocoderReady := geocoderReady s; inputEncoding := inputEncoding s;
     coordinateFormat := coordinateFormat s |}.

Definition setProgress (x : Z) (s : State) : State :=
  {| file := file s; data := data s; addressColumns := addressColumns s;
     columns := columns s; loading := loading s; progress := x;
     error := error s; success := success s;
     geocoderReady := geocoderReady s; inputEncoding := inputEncoding s;
     coordinateFormat := coordinateFormat s |}.

Definition setError (x : string) (s : State) : State :=
  {| file := file s; data := data s; addressColumns := addressColumns s;
     columns := columns s; loading := loading s; progress := progress s;
     error := x; success := success s;
     geocoderReady := geocoderReady s; inputEncoding := inputEncoding s;
     coordinateFormat := coordinateFormat s |}.

Definition setSuccess (x : bool) (s : State) : State :=
  {| file := file s; data := data s; addressColumns := addressColumns s;
     columns := columns s; loading := loading s; progress := progress s;
     error := error s; success := x;
     geocoderReady := geocoderReady s; inputEncoding := inputEncoding s;
     coordinateFormat := coordinateFormat s |}.

Definition setGeocoderReady (x : bool) (s : State) : State :=
  {| file := file s; data := data s; addressColumns := addressColumns s;
     columns := columns s; loading := loading s; progress := progress s;
     error := error s; success := success s;
     geocoderReady := x; inputEncoding := inputEncoding s;
     coordinateFormat := coordinateFormat s |}.

Definition setInputEncoding (x : string) (s : State) : State :=
  {| file := file s; data := data s; addressColumns := addressColumns s;
     columns := columns s; loading := loading s; progress := progress s;
     error := error s; success := success s;
     geocoderReady := geocoderReady s; inputEncoding := x;
     coordinateFormat := coordinateFormat s |}.

Definition setCoordinateFormat (x : format) (s : State) : State :=
  {| file := file s; data := data s; addressColumns := addressColumns s;
     columns := columns s; loading := loading s; progress := progress s;
     error := error s; success := success s;
     geocoderReady := geocoderReady s; inputEncoding := inputEncoding s;
     coordinateFormat := x |}.

(** What reading, decoding and parsing the file delivers to a handler:
    [reader.onerror]; an exception inside [reader.onload] (an unknown
    encoding label, for one); the [error] callback of [Papa.parse]; or
    its [complete] callback with [results.data]. *)
Inductive reading : Type :=
| reader_fails
| decoding_throws (message : string)
| parse_fails (message : string)
| parse_completes (results_data : list GeocodedRow).

(** ** Loading the geocoder script ([useEffect]) *)

Definition script_onload (st : State) : State := setGeocoderReady true st.

Definition script_onerror (st : State) : State :=
  setError "Failed to load geocoding service" st.

(** ** [handleFileChange] *)

Definition handleFileChange (st : State) (selectedFile : option File)
    (r : reading) : State :=
  match selectedFile with
  | None => st
  | Some f =>
      let st1 :=
        setProgress 0 (setData [] (setSuccess false (setError "" (setFile (Some f) st)))) in
      match r with
      | reader_fails => setError "ファイルの読み込みに失敗しました" st1
      | decoding_throws message => setError ("ファイル読み込みエラー: " ++ message) st1
      | parse_fails message => setError ("CSVの読み込みエラー: " ++ message) st1
      | parse_completes results_data =>
          match results_data with
          | [] => st1
          | first :: _ =>
              let cols := Object_keys first in
              let st2 := setColumns cols st1 in
              if (length (addressColumns st) =? 0)%nat && (0 <? length cols)%nat
              then setAddressColumns [hd "" cols] st2
              else st2
          end
      end
  end.

(** ** The encoding select: [onChange]

    The select is rendered only while a file is chosen; its reader has no
    [onerror] handler. *)
Definition inputEncoding_onChange (st : State) (target_value : string)
    (r : reading) : State :=
  let st1 := setInputEncoding target_value st in
  match r with
  | reader_fails => st1
  | decoding_throws message => setError ("ファイル読み込みエラー: " ++ message) st1
  | parse_fails message => setError ("CSVの読み込みエラー: " ++ message) st1
  | parse_completes results_data =>
      match results_data with
      | [] => st1
      | first :: _ =>
          let cols := Object_keys first in
          let seed :=
            match nth_error cols 0 with
            | Some c => if nonempty c then c else ""
            | None => ""
            end in
          setAddressColumns [seed] (setColumns cols st1)
      end
  end.

(** ** A column check box: [onChange] *)
Definition column_onChange (st : State) (col : string) (checked : bool) : State :=
  if checked
  then setAddressColumns (addressColumns st ++ [col]) st
  else setAddressColumns
         (filter (fun c => negb (String.eqb c col)) (addressColumns st)) st.


(** ** Asynchronous code

    An [async] body runs on a machine: the React state, the addresses
    passed to [getLatLng] so far, and the values passed to [setProgress]
    so far.  It returns, raises, or is left suspended at an [await] whose
    promise never settles. *)

Record machine : Type := {
  ui : State;
  calls : list string;
  reported : list Z
}.

Inductive run (A : Type) : Type :=
| returned (a : A) (m : machine)
| raised (reason : string) (m : machine)
| suspended (m : machine).
Arguments returned {A} a m.
Arguments raised {A} reason m.
Arguments suspended {A} m.

(** The machine a run ends on (or hangs on). *)
Definition machine_of {A : Type} (r : run A) : machine :=
  match r with
  | returned _ m => m
  | raised _ m => m
  | suspended m => m
  end.

Definition M (A : Type) : Type := machine -> run A.

Definition ret {A : Type} (a : A) : M A := fun m => returned a m.

Definition bind {A B : Type} (c : M A) (k : A -> M B) : M B :=
  fun m =>
    match c m with
    | returned a m' => k a m'
    | raised reason m' => raised reason m'
    | suspended m' => suspended m'
    end.

Notation "x <- c ;; k" := (bind c (fun x => k))
  (at level 61, c at next level, right associativity).
Notation "c ;; k" := (bind c (fun _ => k))
  (at level 61, right associativity).

(** A state setter other than [setProgress]. *)
Definition set (f : State -> State) : M unit :=
  fun m => returned tt {| ui := f (ui m); calls := calls m; reported := reported m |}.

(** [setProgress(p)]: the value is also what the caller observes. *)
Definition report (p : Z) : M unit :=
  fun m =>
    returned tt {| ui := setProgress p (ui m); calls := calls m;
                   reported := reported m ++ [p] |}.

(** [await p]. *)
Definition await {A : Type} (p : promise A) : M A :=
  fun m =>
    match p with
    | resolved a => returned a m
    | rejected reason => raised reason m
    | pending => suspended m
    end.

(** [try { body } catch (err) { handler } finally { finalizer }]; the
    caught value is kept as the text that
    [err instanceof Error ? err.message : String(err)] makes of it. *)
Definition try_catch_finally {A : Type} (body : M A) (handler : string -> M A)
    (finalizer : M unit) : M A :=
  fun m =>
    let after (r : run A) : run A :=
      match r with
      | returned a m' => (finalizer ;; ret a) m'
      | raised reason m' => (finalizer ;; (fun m'' => raised reason m'')) m'
      | suspended m' => suspended m'
      end in
    match body m with
    | raised reason m' => after (handler reason m')
    | r => after r
    end.

(** ** [geocodeAddress]

    [getLatLng] is [None] while the global function is undefined.  The
    executor of [new Promise] runs at once: an exception of [getLatLng]
    rejects the promise, and a geocoder that calls nothing leaves it
    pending. *)
Definition geocodeAddress (getLatLng : option geocoder) (address : string)
    : M (promise (option coords)) :=
  fun m =>
    match getLatLng with
    | Some f =>
        returned
          (match f (length (calls m)) address with
           | invokes_callback result =>
               resolved (Some {| coords_lat := lat result; coords_lng := lng result |})
           | invokes_errorCallback => resolved None
           | throws reason => rejected reason
           | stays_silent => pending
           end)
          {| ui := ui m; calls := calls m ++ [address]; reported := reported m |}
    | None => returned (resolved None) m
    end.

(** ** [handleProcess] *)

(** [addressParts]: one part per selected column, the empty ones
    filtered out. *)
Definition addressParts (addressColumns : list string) (row : GeocodedRow)
    : list string :=
  filter (fun part => nonempty part)
    (map (fun col =>
            let value := prop_get col row in
            match value with
            | Some v => if ToBoolean value then trim (ToString v) else ""
            | None => ""
            end)
         addressColumns).

(** [address]. *)
Definition address (addressColumns : list string) (row : GeocodedRow) : string :=
  join "" (addressParts addressColumns row).

(** The percentage after [k] of [n] rows. *)
Definition percent (k n : nat) : Z :=
  Math_round
    (double_mul (double_div (double_of_nat k) (double_of_nat n)) (double_of_nat 100)).

(** The body of the loop up to the [push]: the row that is pushed. *)
Definition enrich (getLatLng : option geocoder) (addressColumns : list string)
    (row : GeocodedRow) : M GeocodedRow :=
  let address := address addressColumns row in
  if nonempty address then
    p <- geocodeAddress getLatLng address ;;
    coords <- await p ;;
    match coords with
    | Some c =>
        ret (spread row [("latitude", VNumber (coords_lat c));
                         ("longitude", VNumber (coords_lng c));
                         ("geocoding_status", VString "成功")])
    | None =>
        ret (spread row [("geocoding_status", VString "失敗");
                         ("error_message", VString "結果が見つかりません")])
    end
  else
    ret (spread row [("geocoding_status", VString "スキップ");
                     ("error_message", VString "住所が空です")]).

(** [for (let i = 0; i < rows.length; i++)], entered at index [i] with
    the rows from [i] on still to do. *)
Fixpoint for_rows (getLatLng : option geocoder) (addressColumns : list string)
    (rows_length i : nat) (rest geocodedRows : list GeocodedRow)
    : M (list GeocodedRow) :=
  match rest with
  | [] => ret geocodedRows
  | row :: rest' =>
      enriched <- enrich getLatLng addressColumns row ;;
      report (percent (i + 1) rows_length) ;;
      for_rows getLatLng addressColumns rows_length (S i) rest'
        (geocodedRows ++ [enriched])
  end.

(** The [complete] callback of [Papa.parse] inside [handleProcess]. *)
Definition complete (getLatLng : option geocoder) (addressColumns : list string)
    (results_data : list GeocodedRow) : M unit :=
  try_catch_finally
    (let rows := results_data in
     geocodedRows <- for_rows getLatLng addressColumns (length rows) 0 rows [] ;;
     set (setData geocodedRows) ;;
     set (setSuccess true))
    (fun err => set (setError ("処理エラー: " ++ err)))
    (set (setLoading false)).

Definition handleProcess (getLatLng : option geocoder) (r : reading)
    (st : State) : run unit :=
  let start := {| ui := st; calls := []; reported := [] |} in
  match file st, addressColumns st with
  | None, _ | Some _, [] =>
      set (setError "ファイルと住所列を選択してください") start
  | Some _, _ :: _ =>
      if negb (geocoderReady st) then
        set (setError "ジオコーディングサービスがロード中です。お待ちください...") start
      else
        (set (setLoading true) ;;
         report 0 ;;
         set (setError "") ;;
         match r with
         | reader_fails =>
             set (setError "ファイルの読み込みに失敗しました") ;;
             set (setLoading false)
         | decoding_throws message =>
             set (setError ("ファイル読み込みエラー: " ++ message)) ;;
             set (setLoading false)
         | parse_fails message =>
             set (setError ("CSVの読み込みエラー: " ++ message)) ;;
             set (setLoading false)
         | parse_completes results_data =>
             complete getLatLng (addressColumns st) results_data
         end) start
  end.

(** ** [buildExportRows] and [handleDownload] *)

(** [`${v}`]. *)
Definition interpolate (v : option value) : string :=
  match v with
  | Some w => ToString w
  | None => "undefined"
  end.

(** The callback of [data.map] in the combined format. *)
Definition combine (row : GeocodedRow) : GeocodedRow :=
  let latitude := prop_get "latitude" row in
  let longitude := prop_get "longitude" row in
  let rest := prop_delete "longitude" (prop_delete "latitude" row) in
  spread rest
    [("lat_lon",
      VString (if is_number latitude && is_number longitude
               then interpolate latitude ++ "," ++ interpolate longitude
               else ""))].

Definition buildExportRows (st : State) : list GeocodedRow :=
  match coordinateFormat st with
  | combined => map combine (data st)
  | separate => data st
  end.

(** [name.replace(/\.csv$/i, "")]. *)
Definition without_csv_extension (name : string) : string :=
  let either (lower upper a : ascii) := Ascii.eqb a lower || Ascii.eqb a upper in
  match rev (list_ascii_of_string name) with
  | v :: s :: c :: dot :: front =>
      if either "v"%char "V"%char v && either "s"%char "S"%char s
         && either "c"%char "C"%char c && Ascii.eqb dot "."%char
      then string_of_list_ascii (rev front)
      else name
  | _ => name
  end.

(** What [handleDownload] hands to the browser: the file name and the
    rows given to [Papa.unparse]. *)
Record download : Type := {
  download_name : string;
  unparsed : list GeocodedRow
}.

Definition handleDownload (st : State) : State * option download :=
  match data st with
  | [] => (setError "ダウンロードするデータがありません" st, None)
  | _ :: _ =>
      let originalFileName :=
        match file st with
        | Some f => if nonempty (name f) then name f else "data.csv"
        | None => "data.csv"
        end in
      let fileNameWithoutExt := without_csv_extension originalFileName in
      (st, Some {| download_name := fileNameWithoutExt ++ "_geocoded.csv";
                   unparsed := buildExportRows st |})
  end.

End Page.

Arguments returned {JSN A} a m.
Arguments raised {JSN A} reason m.
Arguments suspended {JSN A} m.

(** ** The vocabulary of the specification *)

Section Vocabulary.

Context {JSN : JSNumber} {JSA : JSArith}.

(** The preconditions of a run: a file is chosen, at least one address
    column is selected, and the geocoder script has loaded. *)
Definition startable (st : State) : bool :=
  match file st, addressColumns st with
  | Some _, _ :: _ => geocoderReady st
  | _, _ => false
  end.

(** A call that reports through one of its two callbacks. *)
Definition reports (r : reaction) : Prop :=
  match r with
  | invokes_callback _ | invokes_errorCallback => True
  | throws _ | stays_silent => False
  end.

(** A geocoder, if loaded at all, every call of which reports. *)
Definition responsive (getLatLng : option geocoder) : Prop :=
  forall f, getLatLng = Some f -> forall n a, reports (f n a).

(** The four fields the pipeline writes. *)
Definition pipeline_fields : list string :=
  ["latitude"; "longitude"; "geocoding_status"; "error_message"].

(** [out] is [row] with pipeline fields assigned, the status among them:
    nothing else is touched, and the properties of [row] keep their
    places. *)
Definition enriches (row out : GeocodedRow) : Prop :=
  exists props,
    out = spread row props
    /\ Forall (fun kv => In (fst kv) pipeline_fields) props
    /\ In "geocoding_status" (map fst props).

(** The three statuses and the text that stands for each in the
    [geocoding_status] column. *)
Inductive status : Type := success_status | failure_status | skipped_status.

Definition status_text (s : status) : string :=
  match s with
  | success_status => "成功"
  | failure_status => "失敗"
  | skipped_status => "スキップ"
  end.

Definition has_status (out : GeocodedRow) (s : status) : Prop :=
  prop_get "geocoding_status" out = Some (VString (status_text s)).

Definition present (key : string) (out : GeocodedRow) : Prop :=
  prop_get key out <> None.

(** [out] records what became of [row] when the call for it, if there was
    one to make, was the [k]-th of the run: skipped when the row has no
    address; success, with the coordinates of the result, when the call
    ended in the success callback; failure when it ended in the error
    callback or there was no geocoder function to call. *)
Definition answered (getLatLng : option geocoder) (selection : list string)
    (k : nat) (row out : GeocodedRow) : Prop :=
  if nonempty (address selection row) then
    match getLatLng with
    | Some f =>
        match f k (address selection row) with
        | invokes_callback result =>
            has_status out success_status
            /\ prop_get "latitude" out = Some (VNumber (lat result))
            /\ prop_get "longitude" out = Some (VNumber (lng result))
        | invokes_errorCallback => has_status out failure_status
        | throws _ | stays_silent => False
        end
    | None => has_status out failure_status
    end
  else has_status out skipped_status.

(** The addresses a loop over [rows] sends when it reaches the end: one
    per row with an address, in the order of the rows; none when the
    geocoder function is missing. *)
Definition sent (getLatLng : option geocoder) (cols : list string)
    (rows : list GeocodedRow) : list string :=
  match getLatLng with
  | Some _ => filter nonempty (map (address cols) rows)
  | None => []
  end.

(** The invariant of an enriched record: one status; coordinates exactly
    on success; a message exactly on failure and on skipping. *)
Definition record_invariant (out : GeocodedRow) : Prop :=
  exists s,
    has_status out s
    /\ (forall s', has_status out s' -> s' = s)
    /\ ((present "latitude" out /\ present "longitude" out) <-> s = success_status)
    /\ (present "error_message" out <-> (s = failure_status \/ s = skipped_status)).

(** An input record that brings no coordinate or message field of its
    own. *)
Definition brings_none (row : GeocodedRow) : Prop :=
  prop_get "latitude" row = None
  /\ prop_get "longitude" row = None
  /\ prop_get "error_message" row = None.

(** The address as the specification words it: the values of the
    selected columns, in selection order; each trimmed; the ones empty
    after trimming dropped; the remainder joined with no separator. *)
Definition spec_values (selection : list string) (record : GeocodedRow) : list value :=
  flat_map (fun col =>
              match prop_get col record with
              | Some v => [v]
              | None => []
              end)
           selection.

Definition spec_address (selection : list string) (record : GeocodedRow) : string :=
  fold_right String.append ""
    (filter nonempty (map (fun v => trim (ToString v)) (spec_values selection record))).

(** A record as [Papa.parse] delivers it when called with [header: true]
    and without [dynamicTyping]: every cell is text. *)
Definition parsed (record : GeocodedRow) : Prop :=
  Forall (fun kv => exists s, snd kv = VString s) record.

(** No selected cell holds a number that is falsy (zero, NaN). *)
Definition no_falsy_number (selection : list string) (record : GeocodedRow) : Prop :=
  forall col n,
    In col selection -> prop_get col record = Some (VNumber n) ->
    Number_toBoolean n = true.

(** A sequence of percentages that never goes down. *)
Fixpoint nondecreasing (l : list Z) : Prop :=
  match l with
  | x :: (y :: _) as rest => (x <= y)%Z /\ nondecreasing rest
  | _ => True
  end.

(** The percentages a complete run over [n] rows reports, the initial
    [setProgress(0)] included. *)
Definition expected_reports (n : nat) : list Z :=
  0%Z :: map (fun k => percent k n) (seq 1 n).

(** [nondecreasing], decided. *)
Fixpoint nondecreasingb (l : list Z) : bool :=
  match l with
  | x :: (y :: _) as rest => (x <=? y)%Z && nondecreasingb rest
  | _ => true
  end.

(** Whether the reports of a complete run over [n] rows never go down and
    end at 100: a check that can be run on a given arithmetic. *)
Definition reports_sound (n : nat) : bool :=
  let l := expected_reports n in
  nondecreasingb l && (last l 0 =? 100)%Z.

End Vocabulary.

(** ** What the page renders

    The conditions and texts of the JSX that depend on the state: they
    decide which handler the user can reach. *)

Section Rendering.

Context {JSN : JSNumber}.

(** [addressColumns.includes(col)]: the [checked] of the check box of
    [col]. *)
Definition includes (col : string) (cols : list string) : bool :=
  existsb (String.eqb col) cols.

(** The [disabled] of the process button:
    [!file || addressColumns.length === 0 || loading || !geocoderReady]. *)
Definition process_disabled (st : State) : bool :=
  match file st with
  | None => true
  | Some _ =>
      (length (addressColumns st) =? 0)%nat || loading st || negb (geocoderReady st)
  end.

(** [data.length > 0 && !loading]: the condition under which the preview
    and the download button are rendered. *)
Definition results_shown (st : State) : bool :=
  (0 <? length (data st))%nat && negb (loading st).

(** What [join] makes of an element: the text of a value, nothing for
    [undefined]. *)
Definition element_text (v : option value) : string :=
  match v with
  | Some w => ToString w
  | None => ""
  end.

(** The parts of [displayAddress]:
    [addressColumns.map((col) => row[col]).filter((val) => val)]. *)
Definition displayParts (addressColumns : list string) (row : GeocodedRow)
    : list string :=
  map element_text
    (filter ToBoolean (map (fun col => prop_get col row) addressColumns)).

(** [displayAddress], the address cell of the preview. *)
Definition displayAddress (addressColumns : list string) (row : GeocodedRow) : string :=
  join "" (displayParts addressColumns row).

(** The colour classes of the status cell of the preview. *)
Definition status_class (row : GeocodedRow) : string :=
  match prop_get "geocoding_status" row with
  | Some (VString s) =>
      if String.eqb s "成功" then "bg-green-100 text-green-800"
      else if String.eqb s "失敗" then "bg-red-100 text-red-800"
      else "bg-yellow-100 text-yellow-800"
  | _ => "bg-yellow-100 text-yellow-800"
  end.

End Rendering.

(** ** More vocabulary *)

Section MoreVocabulary.

Context {JSN : JSNumber} {JSA : JSArith}.

(** What a run never writes: the file, the selection, the columns, the
    readiness of the geocoder, the encoding and the format. *)
Definition settings (st : State)
    : option File * list string * list string * bool * string * format :=
  (file st, addressColumns st, columns st, geocoderReady st, inputEncoding st,
   coordinateFormat st).

(** The machine the [complete] callback of [handleProcess] is entered on:
    loading, progress 0, no error; no call and one report so far. *)
Definition entered (st : State) : machine :=
  {| ui := setError "" (setProgress 0 (setLoading true st));
     calls := []; reported := [0%Z] |}.

(** A cell that gives the address nothing: absent, falsy, or empty once
    trimmed. *)
Definition blank (v : option value) : bool :=
  match v with
  | Some w => negb (ToBoolean v) || negb (nonempty (trim (ToString w)))
  | None => true
  end.

(** The extensions [/\.csv$/i] takes off: a dot, then c, s, v in either
    case. *)
Definition csv_extension (ext : string) : bool :=
  match ext with
  | String dot (String c (String s (String v EmptyString))) =>
      Ascii.eqb dot "."%char
      && (Ascii.eqb c "c"%char || Ascii.eqb c "C"%char)
      && (Ascii.eqb s "s"%char || Ascii.eqb s "S"%char)
      && (Ascii.eqb v "v"%char || Ascii.eqb v "V"%char)
  | _ => false
  end.

(** [name] ends with [ext]. *)
Definition ends_with (name ext : string) : Prop := exists base, name = (base ++ ext)%string.

End MoreVocabulary.

(** ** Concrete pages, files and geocoders

    The data of the scenarios the properties are tried on.  Numbers are
    written as their text. *)

(** The page once the geocoder has loaded, [foo.csv] is chosen and the
    column 住所 is selected. *)
Definition ready_page : @State rendered_number :=
  setGeocoderReady true
    (setAddressColumns ["住所"] (setFile (Some {| name := "foo.csv" |}) initial)).

(** The number with a given text. *)
Definition num (text : string) : @number rendered_number := text.

(** A result of the geocoder with the given coordinates. *)
Definition found (latitude longitude : @number rendered_number)
  : @GeocoderResult rendered_number :=
  {| lat := latitude; lng := longitude; level := num "3";
     pref := "東京都"; city := "千代田区"; town := "丸の内"; addr := "" |}.

(** Two rows with an address each. *)
Definition two_rows : list (@GeocodedRow rendered_number) :=
  [[("住所", VString "東京都千代田区丸の内")];
   [("住所", VString "大阪府大阪市北区")]].

(** The geocoder of scenario A: (35, 139) for the first call, (34, 135)
    for the others. *)
Definition finds_both : @geocoder rendered_number :=
  fun n _ =>
    match n with
    | O => invokes_callback (found (num "35") (num "139"))
    | S _ => invokes_callback (found (num "34") (num "135"))
    end.

(** A geocoder that finds the first address and raises an exception when
    called again. *)
Definition raises_on_second_call : @geocoder rendered_number :=
  fun n _ =>
    match n with
    | O => invokes_callback (found (num "35") (num "139"))
    | S _ => throws "boom"
    end.

(** A geocoder that raises at every call. *)
Definition always_raises : @geocoder rendered_number :=
  fun _ _ => throws "boom".

(** A geocoder that finds nothing: every call ends in the error callback. *)
Definition finds_nothing : @geocoder rendered_number :=
  fun _ _ => invokes_errorCallback.

(** The machine at the start of a run on the ready page. *)
Definition at_start : @machine rendered_number :=
  {| ui := ready_page; calls := []; reported := [] |}.

(** A row of a file that has coordinate columns of its own, for an
    address the geocoder does not know. *)
Definition row_with_coordinates : @GeocodedRow rendered_number :=
  [("住所", VString "存在しない住所");
   ("latitude", VString "35.0");
   ("longitude", VString "139.0")].

(** Scenario B: the selected cell is white space only (a space, an
    ideographic space, a tab). *)
Definition blank_row : @GeocodedRow rendered_number :=
  [("住所", VString (String " " ("　" ++ String (ascii_of_nat 9) "")))].

(** A row whose address is spread over three columns. *)
Definition row_in_parts : @GeocodedRow rendered_number :=
  [("都道府県", VString " 東京都 ");
   ("市区町村", VString "　千代田区");
   ("番地", VString "  ");
   ("備考", VString "本社")].

(** Scenario D: the page after a run that found (35.123456, 139.654321),
    with the combined format chosen. *)
Definition combined_page : @State rendered_number :=
  setCoordinateFormat combined
    (setData [[("住所", VString "東京都千代田区丸の内");
               ("latitude", VNumber (num "35.123456"));
               ("longitude", VNumber (num "139.654321"));
               ("geocoding_status", VString "成功")]]
       ready_page).

(** The first record of another file, with other columns. *)
Definition other_file_row : @GeocodedRow rendered_number :=
  [("name", VString "本社"); ("address", VString "東京都千代田区丸の内")].

(** The record pushed for the first row of [two_rows] when the geocoder
    finds (35, 139). *)
Definition first_row_found : @GeocodedRow rendered_number :=
  [("住所", VString "東京都千代田区丸の内");
   ("latitude", VNumber (num "35"));
   ("longitude", VNumber (num "139"));
   ("geocoding_status", VString "成功")].

(** The record pushed for [row_with_coordinates] when the geocoder finds
    nothing. *)
Definition row_with_coordinates_failed : @GeocodedRow rendered_number :=
  [("住所", VString "存在しない住所");
   ("latitude", VString "35.0");
   ("longitude", VString "139.0");
   ("geocoding_status", VString "失敗");
   ("error_message", VString "結果が見つかりません")].

(** The record pushed for [row_in_parts] when the geocoder finds
    nothing. *)
Definition row_in_parts_failed : @GeocodedRow rendered_number :=
  [("都道府県", VString " 東京都 ");
   ("市区町村", VString "　千代田区");
   ("番地", VString "  ");
   ("備考", VString "本社");
   ("geocoding_status", VString "失敗");
   ("error_message", VString "結果が見つかりません")].

(** * Properties *)

Section Properties.

Context {JSN : JSNumber} {JSA : JSArith}.

(** ** Rows *)

Lemma prop_get_set_same (key : string) (v : value) (row : GeocodedRow) :
  prop_get key (prop_set key v row) = Some v.
Proof.
  induction row as [| [k w] rest IH]; simpl.
  - now rewrite String.eqb_refl.
  - destruct (String.eqb k key) eqn:E; simpl; rewrite E; auto.
Qed.

Lemma prop_get_set_other (key key' : string) (v : value) (row : GeocodedRow) :
  key' <> key -> prop_get key' (prop_set key v row) = prop_get key' row.
Proof.
  intros Hne. induction row as [| [k w] rest IH]; simpl.
  - destruct (String.eqb_spec key key'); congruence.
  - destruct (String.eqb_spec k key) as [-> | Hk]; simpl.
    + destruct (String.eqb_spec key key'); congruence.
    + now rewrite IH.
Qed.

Lemma prop_get_delete_same (key : string) (row : GeocodedRow) :
  prop_get key (prop_delete key row) = None.
Proof.
  unfold prop_delete.
  induction row as [| [k w] rest IH]; simpl; auto.
  destruct (String.eqb k key) eqn:E; simpl; auto.
  now rewrite E.
Qed.

Lemma prop_get_delete_other (key key' : string) (row : GeocodedRow) :
  key' <> key -> prop_get key' (prop_delete key row) = prop_get key' row.
Proof.
  intros Hne. unfold prop_delete.
  induction row as [| [k w] rest IH]; simpl; auto.
  destruct (String.eqb_spec k key) as [-> | Hk]; simpl.
  - destruct (String.eqb_spec key key'); congruence.
  - now rewrite IH.
Qed.

(** A property that [spread] does not assign keeps its value. *)
Lemma prop_get_spread_other (key : string) (props : list (string * value))
    (row : GeocodedRow) :
  ~ In key (map fst props) -> prop_get key (spread row props) = prop_get key row.
Proof.
  unfold spread. revert row.
  induction props as [| [k v] props IH]; intros row Hnot; simpl; auto.
  rewrite IH.
  - apply prop_get_set_other. intros ->. apply Hnot. now left.
  - intros Hin. apply Hnot. now right.
Qed.

Lemma Object_keys_prop_set (key : string) (v : value) (row : GeocodedRow) :
  Object_keys (prop_set key v row)
  = if existsb (String.eqb key) (Object_keys row)
    then Object_keys row
    else Object_keys row ++ [key].
Proof.
  unfold Object_keys.
  induction row as [| [k w] rest IH]; simpl; auto.
  rewrite (String.eqb_sym key k).
  destruct (String.eqb k key) eqn:E; simpl; auto.
  rewrite IH. now destruct (existsb _ _).
Qed.

(** ** The monad *)

Lemma bind_returned {A B : Type} (c : M A) (k : A -> M B) (m m' : machine) (a : A) :
  c m = returned a m' -> bind c k m = k a m'.
Proof. unfold bind. now intros ->. Qed.

Lemma returned_inj {A : Type} (a a' : A) (m m' : machine) :
  returned a m = returned a' m' -> a = a' /\ m = m'.
Proof. intros E. injection E as -> ->. auto. Qed.

(** ** One row *)

(** Every way the body of the loop can go for one row. *)
Lemma enrich_cases (getLatLng : option geocoder) (cols : list string)
    (row : GeocodedRow) (m : machine) :
  enrich getLatLng cols row m =
  if nonempty (address cols row) then
    match getLatLng with
    | None =>
        returned (spread row [("geocoding_status", VString "失敗");
                              ("error_message", VString "結果が見つかりません")]) m
    | Some f =>
        let m1 := {| ui := ui m; calls := calls m ++ [address cols row];
                     reported := reported m |} in
        match f (length (calls m)) (address cols row) with
        | invokes_callback result =>
            returned (spread row [("latitude", VNumber (lat result));
                                  ("longitude", VNumber (lng result));
                                  ("geocoding_status", VString "成功")]) m1
        | invokes_errorCallback =>
            returned (spread row [("geocoding_status", VString "失敗");
                                  ("error_message", VString "結果が見つかりません")]) m1
        | throws reason => raised reason m1
        | stays_silent => suspended m1
        end
    end
  else
    returned (spread row [("geocoding_status", VString "スキップ");
                          ("error_message", VString "住所が空です")]) m.
Proof.
  unfold enrich, bind, geocodeAddress, await, ret.
  destruct (nonempty (address cols row)); [| reflexivity].
  destruct getLatLng as [f |]; [| reflexivity].
  destruct (f (length (calls m)) (address cols row)); reflexivity.
Qed.

(** Membership in a list of literal keys. *)
Ltac literal_key := simpl; repeat (first [left; reflexivity | right]).

(** [Forall] over a literal list of assignments to pipeline fields. *)
Ltac assigns_pipeline_fields :=
  repeat (apply Forall_cons; [literal_key |]); apply Forall_nil.

(** The row that is pushed is the input row with pipeline fields assigned. *)
Lemma enrich_enriches (getLatLng : option geocoder) (cols : list string)
    (row out : GeocodedRow) (m m' : machine) :
  enrich getLatLng cols row m = returned out m' -> enriches row out.
Proof.
  rewrite enrich_cases. unfold enriches, pipeline_fields. cbv zeta.
  destruct (nonempty (address cols row));
    [destruct getLatLng as [f |];
     [destruct (f (length (calls m)) (address cols row)) |] |];
    intros E;
    first [discriminate E
          | apply returned_inj in E; destruct E as [<- _]; eexists; split;
            [reflexivity | split; [assigns_pipeline_fields | literal_key]]].
Qed.

Lemma sent_cons (getLatLng : option geocoder) (cols : list string)
    (row : GeocodedRow) (rows : list GeocodedRow) :
  sent getLatLng cols (row :: rows)
  = sent getLatLng cols [row] ++ sent getLatLng cols rows.
Proof.
  unfold sent. destruct getLatLng; [| reflexivity].
  simpl. destruct (nonempty (address cols row)); reflexivity.
Qed.

(** However the body of the loop ends for a row, it leaves the React state
    and the reports alone, and has made the call of the row if there is
    one to make. *)
Lemma enrich_machine (getLatLng : option geocoder) (cols : list string)
    (row : GeocodedRow) (m : machine) :
  ui (machine_of (enrich getLatLng cols row m)) = ui m
  /\ reported (machine_of (enrich getLatLng cols row m)) = reported m
  /\ calls (machine_of (enrich getLatLng cols row m))
     = calls m ++ sent getLatLng cols [row].
Proof.
  rewrite enrich_cases. unfold sent. cbv zeta. simpl map. simpl filter.
  destruct (nonempty (address cols row));
    [destruct getLatLng as [f |];
     [destruct (f (length (calls m)) (address cols row)) |] |];
    simpl; rewrite ?app_nil_r; auto.
  destruct getLatLng; simpl; rewrite ?app_nil_r; auto.
Qed.

(** The record pushed for a row records the answer to the call made for
    it, which is the next call of the run. *)
Lemma enrich_answered (getLatLng : option geocoder) (cols : list string)
    (row out : GeocodedRow) (m m' : machine) :
  enrich getLatLng cols row m = returned out m' ->
  answered getLatLng cols (length (calls m)) row out.
Proof.
  rewrite enrich_cases. unfold answered, has_status. cbv zeta.
  destruct (nonempty (address cols row));
    [destruct getLatLng as [f |];
     [destruct (f (length (calls m)) (address cols row)) |] |];
    intros E; try discriminate E; apply returned_inj in E; destruct E as [<- _];
    unfold spread; cbn [fold_left fst snd];
    repeat split;
    repeat first [rewrite prop_get_set_same
                 | rewrite prop_get_set_other by discriminate];
    reflexivity.
Qed.

(** With a responsive geocoder the body returns, and touches neither the
    React state nor the reports. *)
Lemma enrich_responsive (getLatLng : option geocoder) (cols : list string)
    (row : GeocodedRow) (m : machine) :
  responsive getLatLng ->
  exists out m',
    enrich getLatLng cols row m = returned out m'
    /\ ui m' = ui m /\ reported m' = reported m.
Proof.
  intros Hresp. rewrite enrich_cases.
  destruct (nonempty (address cols row)).
  - destruct getLatLng as [f |].
    + specialize (Hresp f eq_refl (length (calls m)) (address cols row)).
      cbv zeta.
      destruct (f (length (calls m)) (address cols row)); simpl in Hresp;
        try contradiction; eexists _, _; repeat split.
    + eexists _, _; repeat split.
  - eexists _, _; repeat split.
Qed.

(** ** The loop *)

Lemma last_default_irrelevant {A : Type} (l : list A) (x d d' : A) :
  last (x :: l) d = last (x :: l) d'.
Proof.
  revert x. induction l as [| y l IH]; intros x; [reflexivity |].
  change (last (y :: l) d = last (y :: l) d'). apply IH.
Qed.

(** Whatever the geocoder does, a loop that returns has pushed one row per
    input row, in order, behind what was there. *)
Lemma for_rows_returned (getLatLng : option geocoder) (cols : list string)
    (n : nat) (rest : list GeocodedRow) :
  forall (i : nat) (acc : list GeocodedRow) (m : machine)
         (out' : list GeocodedRow) (m' : machine),
    for_rows getLatLng cols n i rest acc m = returned out' m' ->
    exists out,
      out' = acc ++ out
      /\ Forall2 (fun row o => exists m1 m2,
                    enrich getLatLng cols row m1 = returned o m2) rest out.
Proof.
  induction rest as [| row rest IH]; intros i acc m out' m' E; simpl in E.
  - inversion E; subst. exists []. split; [now rewrite app_nil_r | constructor].
  - unfold bind at 1 in E.
    destruct (enrich getLatLng cols row m) as [o m1 | |] eqn:Eo; try discriminate.
    unfold bind at 1 in E. simpl in E.
    apply IH in E. destruct E as (out & -> & Hall).
    exists (o :: out). split.
    + now rewrite <- app_assoc.
    + constructor; [eauto | assumption].
Qed.

(** With a responsive geocoder the loop returns, after one report per
    row. *)
Lemma for_rows_responsive (getLatLng : option geocoder) (cols : list string)
    (n : nat) (rest : list GeocodedRow) :
  responsive getLatLng ->
  forall (i : nat) (acc : list GeocodedRow) (m : machine),
  exists out m',
    for_rows getLatLng cols n i rest acc m = returned (acc ++ out) m'
    /\ length out = length rest
    /\ reported m' = reported m ++ map (fun k => percent k n) (seq (i + 1) (length rest))
    /\ setProgress 0 (ui m') = setProgress 0 (ui m)
    /\ progress (ui m') = last (map (fun k => percent k n) (seq (i + 1) (length rest)))
                               (progress (ui m)).
Proof.
  intros Hresp.
  induction rest as [| row rest IH]; intros i acc m; simpl.
  - exists [], m. rewrite !app_nil_r. repeat split.
  - destruct (enrich_responsive getLatLng cols row m Hresp) as (o & m1 & Eo & Hui & Hrep).
    unfold bind at 1. rewrite Eo.
    unfold bind at 1. simpl.
    match goal with
    | |- context [for_rows _ _ _ _ _ _ ?mm] =>
        destruct (IH (S i) (acc ++ [o]) mm) as (out & m' & E & Hlen & Hrep' & Hui' & Hprog)
    end.
    exists (o :: out), m'. simpl in *.
    replace (acc ++ o :: out) with ((acc ++ [o]) ++ out) by now rewrite <- app_assoc.
    replace (S i + 1) with (S (i + 1)) in * by lia.
    repeat split.
    + exact E.
    + now rewrite Hlen.
    + rewrite Hrep', Hrep, <- app_assoc. reflexivity.
    + rewrite Hui', <- Hui. reflexivity.
    + rewrite Hprog. destruct (map _ (seq (S (i + 1)) (length rest)));
        [reflexivity | apply last_default_irrelevant].
Qed.

(** A loop that returns has made the call of every row that has an
    address, and the record at each place records the answer to the call
    of the row at that place. *)
Lemma for_rows_answers (getLatLng : option geocoder) (cols : list string)
    (n : nat) (rest : list GeocodedRow) :
  forall (i : nat) (acc : list GeocodedRow) (m : machine)
         (out' : list GeocodedRow) (m' : machine),
    for_rows getLatLng cols n i rest acc m = returned out' m' ->
    exists out,
      out' = acc ++ out
      /\ calls m' = calls m ++ sent getLatLng cols rest
      /\ forall j row,
           nth_error rest j = Some row ->
           exists o,
             nth_error out j = Some o
             /\ answered getLatLng cols
                  (length (calls m) + length (sent getLatLng cols (firstn j rest)))
                  row o.
Proof.
  induction rest as [| row rest IH]; intros i acc m out' m' E; simpl in E.
  - inversion E; subst. exists []. split; [now rewrite app_nil_r |]. split.
    + unfold sent. destruct getLatLng; simpl; now rewrite app_nil_r.
    + intros [| j] row H; discriminate H.
  - unfold bind at 1 in E.
    destruct (enrich_machine getLatLng cols row m) as (_ & _ & Hcalls).
    destruct (enrich getLatLng cols row m) as [o m1 | |] eqn:Eo; try discriminate.
    unfold bind at 1 in E. simpl in E, Hcalls.
    apply IH in E. destruct E as (out & -> & Hcalls' & Hans).
    simpl in Hcalls', Hans.
    exists (o :: out). split; [now rewrite <- app_assoc |]. split.
    + rewrite Hcalls', Hcalls, (sent_cons getLatLng cols row rest), <- app_assoc.
      reflexivity.
    + intros [| j] r Hr.
      * injection Hr as <-. exists o. split; [reflexivity |].
        replace (length (calls m) + length (sent getLatLng cols (firstn 0 (row :: rest))))
          with (length (calls m)).
        -- eapply enrich_answered. exact Eo.
        -- unfold sent. destruct getLatLng; simpl; lia.
      * destruct (Hans j r Hr) as (o' & Ho' & Hanswered).
        exists o'. split; [exact Ho' |].
        replace (length (calls m)
                 + length (sent getLatLng cols (firstn (S j) (row :: rest))))
          with (length (calls m1) + length (sent getLatLng cols (firstn j rest))).
        -- exact Hanswered.
        -- simpl firstn. rewrite (sent_cons getLatLng cols row (firstn j rest)).
           rewrite Hcalls, !length_app. lia.
Qed.

(** ** [handleProcess] *)

(** Past the preconditions, [handleProcess] is the [complete] callback run
    after the three initial setters. *)
Lemma handleProcess_parse_completes (getLatLng : option geocoder)
    (rows : list GeocodedRow) (st : State) :
  startable st = true ->
  handleProcess getLatLng (parse_completes rows) st
  = complete getLatLng (addressColumns st) rows
      {| ui := setError "" (setProgress 0 (setLoading true st));
         calls := []; reported := [0%Z] |}.
Proof.
  unfold startable, handleProcess.
  destruct (file st); [| discriminate].
  destruct (addressColumns st); [discriminate |].
  intros ->. reflexivity.
Qed.

Lemma complete_returned (getLatLng : option geocoder) (cols : list string)
    (rows out : list GeocodedRow) (m m1 : machine) :
  for_rows getLatLng cols (length rows) 0 rows [] m = returned out m1 ->
  complete getLatLng cols rows m
  = returned tt {| ui := setLoading false (setSuccess true (setData out (ui m1)));
                   calls := calls m1; reported := reported m1 |}.
Proof.
  intros E. unfold complete, try_catch_finally.
  rewrite (bind_returned _ _ _ _ _ E). reflexivity.
Qed.

(** A complete run with a responsive geocoder, in full. *)
Lemma handleProcess_responsive (getLatLng : option geocoder)
    (rows : list GeocodedRow) (st : State) :
  startable st = true ->
  responsive getLatLng ->
  exists out m1,
    handleProcess getLatLng (parse_completes rows) st
    = returned tt {| ui := setLoading false (setSuccess true (setData out (ui m1)));
                     calls := calls m1; reported := reported m1 |}
    /\ length out = length rows
    /\ Forall2 enriches rows out
    /\ reported m1 = expected_reports (length rows)
    /\ setProgress 0 (ui m1) = setProgress 0 (setError "" (setLoading true st))
    /\ progress (ui m1) = last (expected_reports (length rows)) 0%Z.
Proof.
  intros Hstart Hresp.
  rewrite (handleProcess_parse_completes _ _ _ Hstart).
  destruct (for_rows_responsive getLatLng (addressColumns st) (length rows) rows Hresp
              0 [] {| ui := setError "" (setProgress 0 (setLoading true st));
                      calls := []; reported := [0%Z] |})
    as (out & m1 & E & Hlen & Hrep & Hui & Hprog).
  simpl app in E. simpl in Hrep, Hui, Hprog.
  exists out, m1. rewrite (complete_returned _ _ _ _ _ _ E).
  repeat split; try assumption.
  - destruct (for_rows_returned _ _ _ _ _ _ _ _ _ E) as (out0 & Eout & Hall).
    simpl in Eout. subst out0.
    eapply Forall2_impl; [| exact Hall].
    intros row o (ma & mb & Eo). eapply enrich_enriches; exact Eo.
  - rewrite Hprog. unfold expected_reports.
    destruct (map (fun k => percent k (length rows)) (seq 1 (length rows))) eqn:El;
      [reflexivity |].
    simpl last at 2. destruct l; reflexivity || apply last_default_irrelevant.
Qed.

(** ** The run as a whole *)

(** C1 (amended).  When the preconditions hold and every call of the
    geocoder reports through one of its callbacks (or no geocoder function
    is there at all), the run returns with one enriched record per input
    record, in the order of the input, each the input record with pipeline
    fields, the status among them, assigned.  Whatever the statuses of the
    rows before it, every row is processed: the record at its place has
    the status, and on success the coordinates, that the answer to its own
    call commands (skipped without a call when it has no address), and the
    calls made are those of all the rows that have an address, in order.
    The success flag is set. *)
Theorem every_row_enriched_in_order (getLatLng : option geocoder)
    (rows : list GeocodedRow) (st : State) :
  startable st = true ->
  responsive getLatLng ->
  exists m,
    handleProcess getLatLng (parse_completes rows) st = returned tt m
    /\ length (data (ui m)) = length rows
    /\ Forall2 enriches rows (data (ui m))
    /\ (forall i row,
          nth_error rows i = Some row ->
          exists out,
            nth_error (data (ui m)) i = Some out
            /\ answered getLatLng (addressColumns st)
                 (length (sent getLatLng (addressColumns st) (firstn i rows)))
                 row out)
    /\ calls m = sent getLatLng (addressColumns st) rows
    /\ success (ui m) = true
    /\ loading (ui m) = false.
Proof.
  intros Hstart Hresp.
  rewrite (handleProcess_parse_completes _ _ _ Hstart).
  destruct (for_rows_responsive getLatLng (addressColumns st) (length rows) rows Hresp
              0 [] {| ui := setError "" (setProgress 0 (setLoading true st));
                      calls := []; reported := [0%Z] |})
    as (out & m1 & E & Hlen & _).
  simpl app in E. rewrite (complete_returned _ _ _ _ _ _ E).
  destruct (for_rows_returned _ _ _ _ _ _ _ _ _ E) as (out0 & Eout & Hall).
  simpl in Eout. subst out0.
  destruct (for_rows_answers _ _ _ _ _ _ _ _ _ E) as (out1 & Eout & Hcalls & Hans).
  simpl in Eout, Hcalls, Hans. subst out1.
  eexists. split; [reflexivity |].
  cbn [ui calls data success loading setLoading setSuccess setData].
  split; [exact Hlen |]. split; [| split; [exact Hans | auto]].
  eapply Forall2_impl; [| exact Hall].
  intros row o (ma & mb & Eo). eapply enrich_enriches; exact Eo.
Qed.

(** C10.  When parsing delivers no record, a run whose preconditions hold
    returns with an empty result and the success flag set; the only
    progress ever reported is the initial 0, whatever the arithmetic: the
    percentage is not computed at all. *)
Theorem empty_run_succeeds_at_zero (getLatLng : option geocoder) (st : State) :
  startable st = true ->
  exists m,
    handleProcess getLatLng (parse_completes []) st = returned tt m
    /\ data (ui m) = []
    /\ success (ui m) = true
    /\ progress (ui m) = 0%Z
    /\ reported m = [0%Z]
    /\ calls m = []
    /\ loading (ui m) = false.
Proof.
  intros Hstart. rewrite (handleProcess_parse_completes _ _ _ Hstart).
  eexists. split; [reflexivity |]. simpl. auto 7.
Qed.

(** C7.  When no file is chosen, or no address column is selected, or the
    geocoder has not loaded, [handleProcess] returns at once: the only
    change is the error message; nothing is read, no row is processed, no
    progress is reported, and [data] is what it was.  The message for the
    geocoder differs from the one for the file and the columns. *)
Theorem no_run_without_preconditions (getLatLng : option geocoder) (r : reading)
    (st : State) :
  file st = None \/ addressColumns st = [] \/ geocoderReady st = false ->
  exists message m,
    handleProcess getLatLng r st = returned tt m
    /\ ui m = setError message st
    /\ nonempty message = true
    /\ message = match file st, addressColumns st with
                 | Some _, _ :: _ =>
                     "ジオコーディングサービスがロード中です。お待ちください..."
                 | _, _ => "ファイルと住所列を選択してください"
                 end
    /\ calls m = [] /\ reported m = []
    /\ data (ui m) = data st /\ progress (ui m) = progress st
    /\ loading (ui m) = loading st /\ success (ui m) = success st.
Proof.
  intros H. unfold handleProcess.
  destruct (file st) as [f |] eqn:Ef.
  - destruct (addressColumns st) as [| c cs] eqn:Ec.
    + eexists _, _. split; [reflexivity |]. simpl. repeat split.
    + destruct H as [H | [H | H]]; try discriminate.
      rewrite H. eexists _, _. split; [reflexivity |]. simpl. repeat split.
  - eexists _, _. split; [reflexivity |]. simpl. repeat split.
Qed.

(** C9 (amended).  The promise of [geocodeAddress] settles by what the
    geocoder does.  It resolves with [null] exactly when the function is
    missing or the call ends in the error callback; it resolves with a
    pair exactly when the call ends in the success callback, and the pair
    is made of [lat] and [lng] of the result; it is rejected exactly when
    the function raises an exception, with that exception; it stays
    pending exactly when the geocoder calls nothing back.  So it never
    rejects as long as the geocoder reports through its callbacks. *)
Theorem geocodeAddress_settles (getLatLng : option geocoder) (a : string)
    (m : machine) :
  exists p m',
    geocodeAddress getLatLng a m = returned p m'
    /\ (p = resolved None <->
        getLatLng = None
        \/ exists f, getLatLng = Some f /\ f (length (calls m)) a = invokes_errorCallback)
    /\ (forall c, p = resolved (Some c) <->
        exists f result,
          getLatLng = Some f /\ f (length (calls m)) a = invokes_callback result
          /\ c = {| coords_lat := lat result; coords_lng := lng result |})
    /\ (forall reason, p = rejected reason <->
        exists f, getLatLng = Some f /\ f (length (calls m)) a = throws reason)
    /\ (p = pending <->
        exists f, getLatLng = Some f /\ f (length (calls m)) a = stays_silent)
    /\ ((forall f, getLatLng = Some f -> reports (f (length (calls m)) a)) ->
        exists v, p = resolved v).
Proof.
  unfold geocodeAddress.
  destruct getLatLng as [f |].
  - eexists _, _. split; [reflexivity |].
    destruct (f (length (calls m)) a) as [result | | reason |] eqn:Ef.
    + split; [| split; [| split; [| split]]].
      * split; [discriminate |].
        intros [H | (g & [= <-] & Hg)]; [discriminate | congruence].
      * intros c. split.
        -- intros [= <-]. exists f, result. auto.
        -- intros (g & res & [= <-] & Hg & ->). rewrite Ef in Hg.
           injection Hg as <-. reflexivity.
      * intros r. split; [discriminate |].
        intros (g & [= <-] & Hg). congruence.
      * split; [discriminate |]. intros (g & [= <-] & Hg). congruence.
      * intros _. eexists. reflexivity.
    + split; [| split; [| split; [| split]]].
      * split; [| reflexivity]. intros _. right. exists f. auto.
      * intros c. split; [discriminate |].
        intros (g & res & [= <-] & Hg & _). congruence.
      * intros r. split; [discriminate |].
        intros (g & [= <-] & Hg). congruence.
      * split; [discriminate |]. intros (g & [= <-] & Hg). congruence.
      * intros _. eexists. reflexivity.
    + split; [| split; [| split; [| split]]].
      * split; [discriminate |].
        intros [H | (g & [= <-] & Hg)]; [discriminate | congruence].
      * intros c. split; [discriminate |].
        intros (g & res & [= <-] & Hg & _). congruence.
      * intros r. split.
        -- intros [= <-]. exists f. auto.
        -- intros (g & [= <-] & Hg). congruence.
      * split; [discriminate |]. intros (g & [= <-] & Hg). congruence.
      * intros H. specialize (H f eq_refl). rewrite Ef in H. contradiction.
    + split; [| split; [| split; [| split]]].
      * split; [discriminate |].
        intros [H | (g & [= <-] & Hg)]; [discriminate | congruence].
      * intros c. split; [discriminate |].
        intros (g & res & [= <-] & Hg & _). congruence.
      * intros r. split; [discriminate |].
        intros (g & [= <-] & Hg). congruence.
      * split; [| reflexivity]. intros _. exists f. auto.
      * intros H. specialize (H f eq_refl). rewrite Ef in H. contradiction.
  - exists (resolved None), m. split; [reflexivity |].
    split; [| split; [| split; [| split]]].
    + split; auto.
    + intros c. split; [discriminate |]. intros (g & res & Hg & _). discriminate.
    + intros r. split; [discriminate |]. intros (g & Hg & _). discriminate.
    + split; [discriminate |]. intros (g & Hg & _). discriminate.
    + intros _. eexists. reflexivity.
Qed.

(** ** Progress *)

Lemma nondecreasingb_sound (l : list Z) :
  nondecreasingb l = true -> nondecreasing l.
Proof.
  induction l as [| x l IH]; [easy |].
  destruct l as [| y l]; [easy |].
  intros H. apply andb_prop in H. destruct H as [Hxy Hrest].
  split; [now apply Z.leb_le | now apply IH].
Qed.


(** ** The fields of an enriched record *)

(** Reads a property of a [spread] over a literal list of assignments. *)
Ltac read_spread :=
  unfold spread; cbn [fold_left fst snd];
  repeat first [rewrite prop_get_set_same
               | rewrite prop_get_set_other by discriminate].

Lemma status_text_injective (s s' : status) :
  status_text s' = status_text s -> s' = s.
Proof. destruct s, s'; simpl; intros E; reflexivity || discriminate E. Qed.

(** The record of a success. *)
Lemma located_invariant (row : GeocodedRow) (a b : number) :
  brings_none row ->
  record_invariant (spread row [("latitude", VNumber a); ("longitude", VNumber b);
                                ("geocoding_status", VString "成功")]).
Proof.
  intros (Hlat & Hlng & Hmsg). exists success_status.
  unfold has_status, present. split; [| split; [| split]].
  - read_spread. reflexivity.
  - intros s' H. revert H. read_spread. intros [= E].
    apply status_text_injective. symmetry. exact E.
  - split; [reflexivity |].
    intros _. split; read_spread; discriminate.
  - split.
    + intros H. exfalso. apply H. read_spread. exact Hmsg.
    + intros [H | H]; discriminate H.
Qed.

(** The record of a failure or of a skipped row. *)
Lemma unlocated_invariant (row : GeocodedRow) (s : status) (message : string) :
  brings_none row ->
  s = failure_status \/ s = skipped_status ->
  record_invariant (spread row [("geocoding_status", VString (status_text s));
                                ("error_message", VString message)]).
Proof.
  intros (Hlat & Hlng & Hmsg) Hs. exists s.
  unfold has_status, present. split; [| split; [| split]].
  - read_spread. reflexivity.
  - intros s' H. revert H. read_spread. intros [= E].
    apply status_text_injective. symmetry. exact E.
  - split.
    + intros [H _]. exfalso. apply H. read_spread. exact Hlat.
    + intros ->. destruct Hs; discriminate.
  - split.
    + intros _. exact Hs.
    + intros _. read_spread. discriminate.
Qed.

(** C2 (amended).  Every record the loop pushes for an input record that
    brings no [latitude], [longitude] or [error_message] field of its own
    has exactly one of the three statuses, has both coordinates exactly
    when the status is success, and has an error message exactly when the
    status is failure or skipped. *)
Theorem enriched_record_invariant (getLatLng : option geocoder)
    (cols : list string) (row out : GeocodedRow) (m m' : machine) :
  enrich getLatLng cols row m = returned out m' ->
  brings_none row ->
  record_invariant out.
Proof.
  rewrite enrich_cases. cbv zeta. intros E Hnone.
  destruct (nonempty (address cols row));
    [destruct getLatLng as [f |];
     [destruct (f (length (calls m)) (address cols row)) |] |];
    try discriminate E; apply returned_inj in E; destruct E as [<- _].
  - apply located_invariant; assumption.
  - apply (unlocated_invariant row failure_status); auto.
  - apply (unlocated_invariant row failure_status); auto.
  - apply (unlocated_invariant row skipped_status); auto.
Qed.

(** C4 (amended).  A row whose address is empty is pushed with the status
    スキップ and the message 住所が空です, without any call; a row whose
    address is not empty and whose call ends in the error callback, or for
    which no geocoder function is there, is pushed with the status 失敗 and
    the message 結果が見つかりません: the same record in both cases. *)
Theorem messages_of_skipped_and_failed_rows (getLatLng : option geocoder)
    (cols : list string) (row : GeocodedRow) (m : machine) :
  nonempty (address cols row) = false
  \/ getLatLng = None
  \/ (exists f, getLatLng = Some f
                /\ f (length (calls m)) (address cols row) = invokes_errorCallback) ->
  exists out m',
    enrich getLatLng cols row m = returned out m'
    /\ out = (if nonempty (address cols row)
              then spread row [("geocoding_status", VString "失敗");
                               ("error_message", VString "結果が見つかりません")]
              else spread row [("geocoding_status", VString "スキップ");
                               ("error_message", VString "住所が空です")])
    /\ prop_get "error_message" out
       = Some (VString (if nonempty (address cols row)
                        then "結果が見つかりません" else "住所が空です"))
    /\ prop_get "geocoding_status" out
       = Some (VString (if nonempty (address cols row) then "失敗" else "スキップ"))
    /\ (nonempty (address cols row) = false -> m' = m).
Proof.
  intros H. rewrite enrich_cases. cbv zeta.
  destruct (nonempty (address cols row)) eqn:Ea.
  - destruct H as [H | [-> | (f & -> & ->)]]; [discriminate | |];
      eexists _, _; (split; [reflexivity |]); (split; [reflexivity |]);
      repeat split; try discriminate; read_spread; reflexivity.
  - eexists _, _; (split; [reflexivity |]); (split; [reflexivity |]);
      repeat split; read_spread; reflexivity.
Qed.

(** ** The address *)

Lemma append_empty_r (s : string) : (s ++ "")%string = s.
Proof. induction s as [| a s IH]; simpl; congruence. Qed.

(** Joining with the empty separator is concatenation. *)
Lemma join_empty (parts : list string) :
  join "" parts = fold_right String.append "" parts.
Proof.
  unfold join. induction parts as [| x parts IH]; [reflexivity |].
  destruct parts as [| y parts].
  - simpl. now rewrite append_empty_r.
  - change (String.concat "" (x :: y :: parts))
      with (x ++ "" ++ String.concat "" (y :: parts))%string.
    rewrite IH. reflexivity.
Qed.

(** The parts of the program are the trimmed values of the
    specification, as long as no selected cell holds a falsy number. *)
Lemma addressParts_spec (cols : list string) (row : GeocodedRow) :
  no_falsy_number cols row ->
  addressParts cols row
  = filter nonempty (map (fun v => trim (ToString v)) (spec_values cols row)).
Proof.
  unfold addressParts, spec_values, no_falsy_number.
  induction cols as [| col cols IH]; intros Hnum; [reflexivity |].
  simpl map. simpl flat_map.
  assert (IH' : filter (fun part => nonempty part)
                  (map (fun col0 =>
                          match prop_get col0 row with
                          | Some v => if ToBoolean (prop_get col0 row)
                                      then trim (ToString v) else ""
                          | None => ""
                          end) cols)
                = filter nonempty
                    (map (fun v => trim (ToString v))
                       (flat_map (fun col0 =>
                                    match prop_get col0 row with
                                    | Some v => [v]
                                    | None => []
                                    end) cols))).
  { apply IH. intros c n Hin. apply Hnum. now right. }
  destruct (prop_get col row) as [[s | n] |] eqn:Ecol.
  - simpl ToBoolean. destruct s as [| a s].
    + simpl. exact IH'.
    + simpl nonempty. cbv iota. simpl app. simpl map. simpl filter.
      rewrite IH'. reflexivity.
  - simpl ToBoolean. rewrite (Hnum col n (or_introl eq_refl) Ecol).
    simpl app. simpl map. simpl filter. rewrite IH'. reflexivity.
  - simpl. exact IH'.
Qed.

(** A parsed record holds no number at all. *)
Lemma parsed_no_falsy_number (cols : list string) (row : GeocodedRow) :
  parsed row -> no_falsy_number cols row.
Proof.
  unfold parsed. intros Htext col n _ Hcell. exfalso.
  induction Htext as [| [k v] rest (s & Hs) _ IH]; [discriminate Hcell |].
  simpl in Hcell, Hs. destruct (String.eqb k col); [| exact (IH Hcell)].
  congruence.
Qed.

(** C3.  For every record as the parser delivers it, the address is made
    of the values of the selected columns in selection order, each
    trimmed, the ones empty after trimming dropped, joined with no
    separator.  When it is empty the row is pushed with the status スキップ
    and the machine is untouched: no call is made.  When it is not empty
    and a geocoder function is there, the call is made with exactly this
    address. *)
Theorem address_as_specified (getLatLng : option geocoder) (cols : list string)
    (row : GeocodedRow) (m : machine) :
  parsed row ->
  address cols row = spec_address cols row
  /\ (nonempty (spec_address cols row) = false ->
      enrich getLatLng cols row m
      = returned (spread row [("geocoding_status", VString "スキップ");
                              ("error_message", VString "住所が空です")]) m)
  /\ (nonempty (spec_address cols row) = true ->
      forall f, getLatLng = Some f ->
      calls (machine_of (enrich getLatLng cols row m))
      = calls m ++ [spec_address cols row]).
Proof.
  intros Hparsed.
  pose proof (parsed_no_falsy_number cols row Hparsed) as Hnum.
  assert (E : address cols row = spec_address cols row).
  { unfold address, spec_address. rewrite join_empty.
    now rewrite addressParts_spec. }
  split; [exact E |]. rewrite <- E. split.
  - intros Hempty. rewrite enrich_cases, Hempty. reflexivity.
  - intros Hfull f ->. rewrite enrich_cases, Hfull. cbv zeta.
    destruct (f (length (calls m)) (address cols row)); reflexivity.
Qed.

(** ** Export *)

Lemma Object_keys_prop_delete (key : string) (row : GeocodedRow) :
  Object_keys (prop_delete key row)
  = filter (fun k => negb (String.eqb k key)) (Object_keys row).
Proof.
  unfold Object_keys, prop_delete.
  induction row as [| [k v] rest IH]; simpl; auto.
  destruct (String.eqb k key); simpl; congruence.
Qed.

Lemma NoDup_Object_keys_prop_set (key : string) (v : value) (row : GeocodedRow) :
  NoDup (Object_keys row) -> NoDup (Object_keys (prop_set key v row)).
Proof.
  intros Hnd. rewrite Object_keys_prop_set.
  destruct (existsb (String.eqb key) (Object_keys row)) eqn:E; [assumption |].
  apply NoDup_app; [assumption | repeat constructor; simpl; tauto |].
  intros k Hin [Hk | []]. subst k.
  assert (existsb (String.eqb key) (Object_keys row) = true); [| congruence].
  apply existsb_exists. exists key. split; [assumption | apply String.eqb_refl].
Qed.

Lemma In_Object_keys_prop_set (key : string) (v : value) (row : GeocodedRow) :
  In key (Object_keys (prop_set key v row)).
Proof.
  rewrite Object_keys_prop_set.
  destruct (existsb (String.eqb key) (Object_keys row)) eqn:E.
  - apply existsb_exists in E. destruct E as (k & Hin & Hk).
    apply String.eqb_eq in Hk. now subst.
  - apply in_or_app. right. now left.
Qed.

(** C6.  [buildExportRows] returns [data] itself in the separate format
    and [data] mapped through [combine] in the combined one.  A combined
    record has no [latitude] and no [longitude]; its [lat_lon] is the two
    numbers as text with a comma between them when both are numbers, and
    the empty string when one of them is absent; it is there once; every
    other field is as in the stored record.  [handleDownload] leaves
    [data] as it is. *)
Theorem export_shapes (st : State) :
  match coordinateFormat st with
  | separate => buildExportRows st = data st
  | combined => buildExportRows st = map combine (data st)
  end
  /\ (forall row,
        prop_get "latitude" (combine row) = None
        /\ prop_get "longitude" (combine row) = None
        /\ (forall a b,
              prop_get "latitude" row = Some (VNumber a) ->
              prop_get "longitude" row = Some (VNumber b) ->
              prop_get "lat_lon" (combine row)
              = Some (VString (Number_toString a ++ "," ++ Number_toString b)))
        /\ (prop_get "latitude" row = None \/ prop_get "longitude" row = None ->
            prop_get "lat_lon" (combine row) = Some (VString ""))
        /\ (forall key,
              key <> "latitude" -> key <> "longitude" -> key <> "lat_lon" ->
              prop_get key (combine row) = prop_get key row)
        /\ In "lat_lon" (Object_keys (combine row))
        /\ (NoDup (Object_keys row) -> NoDup (Object_keys (combine row))))
  /\ data (fst (handleDownload st)) = data st.
Proof.
  split; [| split].
  - unfold buildExportRows. destruct (coordinateFormat st); reflexivity.
  - intros row. unfold combine, spread. cbn [fold_left fst snd].
    split; [| split; [| split; [| split; [| split; [| split]]]]].
    + rewrite prop_get_set_other by discriminate.
      rewrite prop_get_delete_other by discriminate.
      apply prop_get_delete_same.
    + rewrite prop_get_set_other by discriminate.
      apply prop_get_delete_same.
    + intros a b -> ->. rewrite prop_get_set_same. reflexivity.
    + intros H. rewrite prop_get_set_same.
      destruct H as [-> | ->]; [reflexivity |].
      now rewrite andb_false_r.
    + intros key H1 H2 H3.
      rewrite prop_get_set_other by congruence.
      rewrite !prop_get_delete_other by congruence. reflexivity.
    + apply In_Object_keys_prop_set.
    + intros Hnd. apply NoDup_Object_keys_prop_set.
      rewrite !Object_keys_prop_delete. now apply NoDup_filter, NoDup_filter.
  - unfold handleDownload. destruct (data st) eqn:E; simpl; exact E.
Qed.

(** ** Seeding the selection *)

(** C8 (amended).  When parsing delivers at least one record, with at
    least one column: a newly loaded file seeds the selection with the
    first column only if the selection is empty, and leaves a selection
    that is not empty as it is; a change of encoding always sets the
    selection to the first column.  Both set [columns] to the columns of
    the first record. *)
Theorem selection_seeding (st : State) (f : File) (target_value : string)
    (first : GeocodedRow) (rest : list GeocodedRow) (c : string) (cs : list string) :
  Object_keys first = c :: cs ->
  (addressColumns st = [] ->
   addressColumns (handleFileChange st (Some f) (parse_completes (first :: rest))) = [c])
  /\ (addressColumns st <> [] ->
      addressColumns (handleFileChange st (Some f) (parse_completes (first :: rest)))
      = addressColumns st)
  /\ addressColumns (inputEncoding_onChange st target_value (parse_completes (first :: rest)))
     = [c]
  /\ columns (handleFileChange st (Some f) (parse_completes (first :: rest))) = c :: cs
  /\ columns (inputEncoding_onChange st target_value (parse_completes (first :: rest)))
     = c :: cs.
Proof.
  intros Hkeys. unfold handleFileChange, inputEncoding_onChange. cbv zeta.
  rewrite Hkeys. repeat split.
  - intros ->. reflexivity.
  - intros Hsel. destruct (addressColumns st) eqn:E; [congruence |]. simpl.
    exact E.
  - simpl. destruct c; reflexivity.
  - destruct (addressColumns st); reflexivity.
Qed.

End Properties.

(** * More of the page *)

Section Coverage.

Context {JSN : JSNumber} {JSA : JSArith}.

(** ** The machine along a run *)

(** A body that does not return was stopped by the geocoder. *)
Lemma enrich_stopped (getLatLng : option geocoder) (cols : list string)
    (row : GeocodedRow) (m : machine) :
  match enrich getLatLng cols row m with
  | returned _ _ => True
  | raised reason _ =>
      exists f, getLatLng = Some f
                /\ f (length (calls m)) (address cols row) = throws reason
  | suspended _ =>
      exists f, getLatLng = Some f
                /\ f (length (calls m)) (address cols row) = stays_silent
  end.
Proof.
  rewrite enrich_cases. cbv zeta.
  destruct (nonempty (address cols row)); [| exact I].
  destruct getLatLng as [f |]; [| exact I].
  destruct (f (length (calls m)) (address cols row)) eqn:E; try exact I;
    exists f; auto.
Qed.

(** One turn of the loop. *)
Lemma for_rows_cons (getLatLng : option geocoder) (cols : list string)
    (n i : nat) (row : GeocodedRow) (rest acc : list GeocodedRow) (m : machine) :
  for_rows getLatLng cols n i (row :: rest) acc m
  = match enrich getLatLng cols row m with
    | returned o m1 =>
        for_rows getLatLng cols n (S i) rest (acc ++ [o])
          {| ui := setProgress (percent (i + 1) n) (ui m1); calls := calls m1;
             reported := reported m1 ++ [percent (i + 1) n] |}
    | raised reason m1 => raised reason m1
    | suspended m1 => suspended m1
    end.
Proof.
  simpl. unfold bind at 1. destruct (enrich getLatLng cols row m); reflexivity.
Qed.

(** The machine a loop ends on, however it ends: only the progress of the
    React state has changed; the reports made are the percentages of the
    rows done, in order; the calls made are the beginning of the calls of
    a complete loop. *)
Lemma for_rows_machine (getLatLng : option geocoder) (cols : list string)
    (n : nat) (rest : list GeocodedRow) :
  forall (i : nat) (acc : list GeocodedRow) (m : machine),
  exists j,
    j <= length rest
    /\ setProgress 0 (ui (machine_of (for_rows getLatLng cols n i rest acc m)))
       = setProgress 0 (ui m)
    /\ reported (machine_of (for_rows getLatLng cols n i rest acc m))
       = reported m ++ map (fun k => percent k n) (seq (i + 1) j)
    /\ progress (ui (machine_of (for_rows getLatLng cols n i rest acc m)))
       = last (map (fun k => percent k n) (seq (i + 1) j)) (progress (ui m))
    /\ calls (machine_of (for_rows getLatLng cols n i rest acc m))
       = calls m ++ sent getLatLng cols (firstn j rest)
         ++ match for_rows getLatLng cols n i rest acc m with
            | returned _ _ => []
            | _ => sent getLatLng cols (firstn 1 (skipn j rest))
            end
    /\ match for_rows getLatLng cols n i rest acc m with
       | returned out _ => j = length rest /\ length out = length acc + length rest
       | raised reason _ =>
           exists f k a, getLatLng = Some f /\ f k a = throws reason
       | suspended _ =>
           exists f k a, getLatLng = Some f /\ f k a = stays_silent
       end.
Proof.
  induction rest as [| row rest IH]; intros i acc m.
  - exists 0. unfold sent.
    destruct getLatLng; simpl; rewrite ?app_nil_r; repeat split; auto; lia.
  - rewrite for_rows_cons.
    destruct (enrich_machine getLatLng cols row m) as (Hui & Hrep & Hcalls).
    pose proof (enrich_stopped getLatLng cols row m) as Hstop.
    destruct (enrich getLatLng cols row m) as [o m1 | reason m1 | m1] eqn:Eo;
      simpl in Hui, Hrep, Hcalls.
    + match goal with
      | |- context [for_rows _ _ _ _ _ _ ?mm] =>
          destruct (IH (S i) (acc ++ [o]) mm)
            as (j & Hj & Hui' & Hrep' & Hprog' & Hcalls' & Hend);
          set (r := for_rows getLatLng cols n (S i) rest (acc ++ [o]) mm) in *
      end.
      exists (S j). simpl in Hui', Hrep', Hprog', Hcalls'.
      replace (S i + 1) with (S (i + 1)) in * by lia.
      split; [simpl; lia |]. split; [| split; [| split; [| split]]].
      * rewrite Hui', Hui. reflexivity.
      * rewrite Hrep', Hrep, <- app_assoc. reflexivity.
      * rewrite Hprog'. simpl seq. simpl map.
        destruct (map (fun k => percent k n) (seq (S (i + 1)) j)) as [| z l];
          [reflexivity |].
        exact (last_default_irrelevant l z (percent (i + 1) n) (progress (ui m))).
      * rewrite Hcalls', Hcalls. simpl firstn. simpl skipn.
        rewrite (sent_cons getLatLng cols row (firstn j rest)).
        rewrite <- !app_assoc. reflexivity.
      * destruct r; auto.
        destruct Hend as [-> Hlen]. split; [reflexivity |].
        rewrite Hlen, length_app. simpl. lia.
    + exists 0. simpl. rewrite Hui, Hrep, Hcalls, !app_nil_r.
      split; [lia |]. split; [reflexivity |]. split; [reflexivity |].
      split; [reflexivity |]. split.
      * unfold sent at 1. destruct getLatLng; reflexivity.
      * destruct Hstop as (f & Hf & Hthrow). eauto.
    + exists 0. simpl. rewrite Hui, Hrep, Hcalls, !app_nil_r.
      split; [lia |]. split; [reflexivity |]. split; [reflexivity |].
      split; [reflexivity |]. split.
      * unfold sent at 1. destruct getLatLng; reflexivity.
      * destruct Hstop as (f & Hf & Hsilent). eauto.
Qed.


(** ** [handleProcess], whatever happens *)

(** The [complete] callback, by how its loop ends. *)
Lemma complete_cases (getLatLng : option geocoder) (cols : list string)
    (rows : list GeocodedRow) (m : machine) :
  complete getLatLng cols rows m
  = match for_rows getLatLng cols (length rows) 0 rows [] m with
    | returned out m1 =>
        returned tt {| ui := setLoading false (setSuccess true (setData out (ui m1)));
                       calls := calls m1; reported := reported m1 |}
    | raised reason m1 =>
        returned tt {| ui := setLoading false
                               (setError ("処理エラー: " ++ reason) (ui m1));
                       calls := calls m1; reported := reported m1 |}
    | suspended m1 => suspended m1
    end.
Proof.
  unfold complete, try_catch_finally, bind.
  destruct (for_rows getLatLng cols (length rows) 0 rows [] m); reflexivity.
Qed.

(** [handleProcess] when a precondition fails. *)
Lemma handleProcess_refused (getLatLng : option geocoder) (r : reading) (st : State) :
  startable st = false ->
  exists message,
    handleProcess getLatLng r st
    = returned tt {| ui := setError message st; calls := []; reported := [] |}.
Proof.
  unfold startable, handleProcess.
  destruct (file st); [| eexists; reflexivity].
  destruct (addressColumns st); [eexists; reflexivity |].
  intros ->. eexists. reflexivity.
Qed.

(** [handleProcess] past its preconditions. *)
Lemma handleProcess_started (getLatLng : option geocoder) (r : reading) (st : State) :
  startable st = true ->
  handleProcess getLatLng r st
  = match r with
    | reader_fails =>
        returned tt {| ui := setLoading false
                               (setError "ファイルの読み込みに失敗しました" (ui (entered st)));
                       calls := []; reported := [0%Z] |}
    | decoding_throws message =>
        returned tt {| ui := setLoading false
                               (setError ("ファイル読み込みエラー: " ++ message)
                                  (ui (entered st)));
                       calls := []; reported := [0%Z] |}
    | parse_fails message =>
        returned tt {| ui := setLoading false
                               (setError ("CSVの読み込みエラー: " ++ message)
                                  (ui (entered st)));
                       calls := []; reported := [0%Z] |}
    | parse_completes rows => complete getLatLng (addressColumns st) rows (entered st)
    end.
Proof.
  unfold startable, handleProcess.
  destruct (file st); [| discriminate].
  destruct (addressColumns st); [discriminate |].
  intros ->. destruct r; reflexivity.
Qed.

(** The loop of a run, from the machine it is entered on. *)
Lemma run_machine (getLatLng : option geocoder) (rows : list GeocodedRow) (st : State) :
  exists j,
    j <= length rows
    /\ setProgress 0
         (ui (machine_of (for_rows getLatLng (addressColumns st) (length rows) 0 rows []
                            (entered st))))
       = setProgress 0 (setError "" (setLoading true st))
    /\ reported (machine_of (for_rows getLatLng (addressColumns st) (length rows) 0 rows []
                               (entered st)))
       = 0%Z :: map (fun k => percent k (length rows)) (seq 1 j)
    /\ progress (ui (machine_of (for_rows getLatLng (addressColumns st) (length rows) 0
                                   rows [] (entered st))))
       = last (map (fun k => percent k (length rows)) (seq 1 j)) 0%Z
    /\ calls (machine_of (for_rows getLatLng (addressColumns st) (length rows) 0 rows []
                            (entered st)))
       = sent getLatLng (addressColumns st) (firstn j rows)
         ++ match for_rows getLatLng (addressColumns st) (length rows) 0 rows []
                    (entered st) with
            | returned _ _ => []
            | _ => sent getLatLng (addressColumns st) (firstn 1 (skipn j rows))
            end
    /\ match for_rows getLatLng (addressColumns st) (length rows) 0 rows []
               (entered st) with
       | returned out _ => j = length rows /\ length out = length rows
       | raised reason _ =>
           exists f k a, getLatLng = Some f /\ f k a = throws reason
       | suspended _ =>
           exists f k a, getLatLng = Some f /\ f k a = stays_silent
       end.
Proof.
  destruct (for_rows_machine getLatLng (addressColumns st) (length rows) rows 0 []
              (entered st))
    as (j & Hj & Hui & Hrep & Hprog & Hcalls & Hend).
  exists j. simpl in Hui, Hrep, Hprog, Hcalls. auto 7.
Qed.

(** [handleProcess] never lets an exception out.  When it returns after
    having started, [loading] is false again; when a precondition failed,
    [loading] is what it was.  It is left suspended, [loading] still true,
    only when a call of the geocoder never called back. *)
Theorem handleProcess_settles_loading (getLatLng : option geocoder) (r : reading)
    (st : State) :
  match handleProcess getLatLng r st with
  | returned _ m => loading (ui m) = (if startable st then false else loading st)
  | raised _ _ => False
  | suspended m =>
      startable st = true /\ loading (ui m) = true
      /\ exists f k a, getLatLng = Some f /\ f k a = stays_silent
  end.
Proof.
  destruct (startable st) eqn:Hstart.
  - rewrite (handleProcess_started _ _ _ Hstart).
    destruct r as [| message | message | rows]; try reflexivity.
    rewrite complete_cases.
    destruct (run_machine getLatLng rows st) as (j & _ & Hui & _ & _ & _ & Hend).
    destruct (for_rows getLatLng (addressColumns st) (length rows) 0 rows [] (entered st))
      as [out m1 | reason m1 | m1]; try reflexivity.
    simpl in Hui. apply (f_equal loading) in Hui. simpl in Hui. auto.
  - destruct (handleProcess_refused getLatLng r st Hstart) as (message & ->).
    reflexivity.
Qed.

(** A run that has started either succeeds, with a record per row, or
    shows an error and keeps the results and the success flag of the run
    before; suspended, it keeps them too. *)
Theorem run_succeeds_or_keeps_results (getLatLng : option geocoder) (r : reading)
    (st : State) :
  startable st = true ->
  match handleProcess getLatLng r st with
  | returned _ m =>
      (exists rows, r = parse_completes rows
                    /\ success (ui m) = true /\ error (ui m) = ""
                    /\ length (data (ui m)) = length rows)
      \/ (nonempty (error (ui m)) = true
          /\ data (ui m) = data st /\ success (ui m) = success st)
  | raised _ _ => False
  | suspended m =>
      data (ui m) = data st /\ success (ui m) = success st /\ error (ui m) = ""
  end.
Proof.
  intros Hstart. rewrite (handleProcess_started _ _ _ Hstart).
  destruct r as [| message | message | rows];
    try (right; repeat split; reflexivity).
  rewrite complete_cases.
  destruct (run_machine getLatLng rows st) as (j & _ & Hui & _ & _ & _ & Hend).
  destruct (for_rows getLatLng (addressColumns st) (length rows) 0 rows [] (entered st))
    as [out m1 | reason m1 | m1]; simpl in Hui.
  - left. exists rows. destruct Hend as [_ Hlen]. simpl.
    apply (f_equal error) in Hui. simpl in Hui. auto.
  - right. simpl.
    pose proof (f_equal data Hui) as Hdata. pose proof (f_equal success Hui) as Hsucc.
    simpl in Hdata, Hsucc. auto.
  - pose proof (f_equal data Hui) as Hdata. pose proof (f_equal success Hui) as Hsucc.
    pose proof (f_equal error Hui) as Herr. simpl in Hdata, Hsucc, Herr. auto.
Qed.

(** [handleProcess] never writes the file, the selection, the columns, the
    readiness of the geocoder, the encoding or the format, however it
    ends. *)
Theorem handleProcess_keeps_settings (getLatLng : option geocoder) (r : reading)
    (st : State) :
  settings (ui (machine_of (handleProcess getLatLng r st))) = settings st.
Proof.
  destruct (startable st) eqn:Hstart.
  - rewrite (handleProcess_started _ _ _ Hstart).
    destruct r as [| message | message | rows]; try reflexivity.
    rewrite complete_cases.
    destruct (run_machine getLatLng rows st) as (j & _ & Hui & _).
    destruct (for_rows getLatLng (addressColumns st) (length rows) 0 rows [] (entered st))
      as [out m1 | reason m1 | m1]; simpl in Hui;
      apply (f_equal settings) in Hui; exact Hui.
  - destruct (handleProcess_refused getLatLng r st Hstart) as (message & ->).
    reflexivity.
Qed.

Lemma sent_app (getLatLng : option geocoder) (cols : list string)
    (l l' : list GeocodedRow) :
  sent getLatLng cols (l ++ l') = sent getLatLng cols l ++ sent getLatLng cols l'.
Proof.
  unfold sent. destruct getLatLng; [| reflexivity].
  rewrite map_app, filter_app. reflexivity.
Qed.

Lemma sent_nonempty (getLatLng : option geocoder) (cols : list string)
    (l : list GeocodedRow) :
  Forall (fun a => nonempty a = true) (sent getLatLng cols l).
Proof.
  unfold sent. destruct getLatLng; [| constructor].
  apply Forall_forall. intros a Ha. apply filter_In in Ha. tauto.
Qed.

Lemma firstn_one_more {A : Type} (j : nat) (l : list A) :
  firstn j l ++ firstn 1 (skipn j l) = firstn (S j) l.
Proof.
  revert l. induction j as [| j IH]; intros [| x l]; try reflexivity.
  change (x :: (firstn j l ++ firstn 1 (skipn j l)) = x :: firstn (S j) l).
  rewrite IH. reflexivity.
Qed.

Lemma firstn_min_length {A : Type} (n : nat) (l : list A) :
  firstn (Nat.min n (length l)) l = firstn n l.
Proof.
  destruct (Nat.le_ge_cases n (length l)) as [H | H].
  - rewrite Nat.min_l by exact H. reflexivity.
  - rewrite Nat.min_r by exact H. rewrite firstn_all.
    symmetry. apply firstn_all2. exact H.
Qed.

(** The calls of a run.  However the run ends, the geocoder has been
    called with the addresses of the first rows that have one, in the
    order of the rows, once each, and never with an empty address; a run
    that returns without an error has made these calls for all the rows;
    no call is made while the geocoder function is missing. *)
Theorem calls_follow_the_rows (getLatLng : option geocoder)
    (rows : list GeocodedRow) (st : State) :
  startable st = true ->
  exists k,
    k <= length rows
    /\ calls (machine_of (handleProcess getLatLng (parse_completes rows) st))
       = sent getLatLng (addressColumns st) (firstn k rows)
    /\ Forall (fun a => nonempty a = true)
         (calls (machine_of (handleProcess getLatLng (parse_completes rows) st)))
    /\ (forall m, handleProcess getLatLng (parse_completes rows) st = returned tt m ->
                  error (ui m) = "" ->
                  calls m = sent getLatLng (addressColumns st) rows)
    /\ (getLatLng = None ->
        calls (machine_of (handleProcess getLatLng (parse_completes rows) st)) = []).
Proof.
  intros Hstart. rewrite (handleProcess_started _ _ _ Hstart).
  rewrite complete_cases.
  destruct (run_machine getLatLng rows st) as (j & Hj & _ & _ & _ & Hcalls & Hend).
  destruct (for_rows getLatLng (addressColumns st) (length rows) 0 rows [] (entered st))
    as [out m1 | reason m1 | m1]; cbn [machine_of] in Hcalls; simpl.
  - destruct Hend as [-> _]. rewrite app_nil_r, firstn_all in Hcalls.
    exists (length rows). rewrite firstn_all, Hcalls.
    repeat split; auto using sent_nonempty.
    + intros m Hm _. apply returned_inj in Hm. destruct Hm as [_ <-]. reflexivity.
    + intros ->. reflexivity.
  - rewrite <- sent_app, firstn_one_more in Hcalls.
    exists (Nat.min (S j) (length rows)). rewrite firstn_min_length, Hcalls.
    repeat split; auto using sent_nonempty; try lia.
    + intros m Hm Herr. apply returned_inj in Hm. destruct Hm as [_ <-].
      simpl in Herr. discriminate.
    + intros ->. reflexivity.
  - rewrite <- sent_app, firstn_one_more in Hcalls.
    exists (Nat.min (S j) (length rows)). rewrite firstn_min_length, Hcalls.
    repeat split; auto using sent_nonempty; try lia.
    + intros m Hm. discriminate.
    + intros ->. reflexivity.
Qed.

(** ** What a row's status tells *)

(** Reads a property of a [spread] over a literal list of assignments. *)
Ltac read_fields :=
  unfold spread; cbn [fold_left fst snd];
  repeat first [rewrite prop_get_set_same
               | rewrite prop_get_set_other by discriminate].

Lemma concat_filter_nonempty (l : list string) :
  fold_right String.append "" (filter nonempty l) = fold_right String.append "" l.
Proof. induction l as [| [| a s] l IH]; simpl; congruence. Qed.

Lemma nonempty_concat (l : list string) :
  nonempty (fold_right String.append "" l) = existsb nonempty l.
Proof. induction l as [| [| a s] l IH]; simpl; auto. Qed.

(** The address is empty exactly when every selected cell is blank. *)
Lemma address_nonempty_cells (cols : list string) (row : GeocodedRow) :
  nonempty (address cols row)
  = negb (forallb (fun col => blank (prop_get col row)) cols).
Proof.
  unfold address, addressParts. rewrite join_empty.
  rewrite concat_filter_nonempty, nonempty_concat.
  induction cols as [| col cols IH]; [reflexivity |].
  simpl. rewrite IH, negb_andb. f_equal.
  unfold blank.
  destruct (prop_get col row) as [v |]; [| reflexivity].
  destruct (ToBoolean (Some v)); simpl.
  - now rewrite negb_involutive.
  - reflexivity.
Qed.

(** The status of a pushed record tells what happened to its row: skipped
    exactly when every selected cell is absent, falsy or blank; success
    exactly when the call for its address ended in the success callback,
    and then the coordinates are those of the result; failure exactly when
    the address was not empty and the call ended in the error callback or
    there was no geocoder function to call.  The badge of the preview has
    the colour of the status. *)
Theorem status_tells_what_happened (getLatLng : option geocoder)
    (cols : list string) (row out : GeocodedRow) (m m' : machine) :
  enrich getLatLng cols row m = returned out m' ->
  (has_status out skipped_status
   <-> forallb (fun col => blank (prop_get col row)) cols = true)
  /\ (has_status out success_status
      <-> exists f result,
            getLatLng = Some f
            /\ nonempty (address cols row) = true
            /\ f (length (calls m)) (address cols row) = invokes_callback result
            /\ prop_get "latitude" out = Some (VNumber (lat result))
            /\ prop_get "longitude" out = Some (VNumber (lng result)))
  /\ (has_status out failure_status
      <-> nonempty (address cols row) = true
          /\ (getLatLng = None
              \/ exists f,
                   getLatLng = Some f
                   /\ f (length (calls m)) (address cols row) = invokes_errorCallback))
  /\ status_class out
     = (if nonempty (address cols row)
        then match getLatLng with
             | None => "bg-red-100 text-red-800"
             | Some f =>
                 match f (length (calls m)) (address cols row) with
                 | invokes_callback _ => "bg-green-100 text-green-800"
                 | _ => "bg-red-100 text-red-800"
                 end
             end
        else "bg-yellow-100 text-yellow-800").
Proof.
  rewrite enrich_cases. cbv zeta.
  assert (Hblank : forallb (fun col => blank (prop_get col row)) cols
                   = negb (nonempty (address cols row)))
    by (rewrite address_nonempty_cells, negb_involutive; reflexivity).
  unfold has_status, status_class.
  destruct (nonempty (address cols row)) eqn:Ea;
    [destruct getLatLng as [f |];
     [destruct (f (length (calls m)) (address cols row)) as [result | | |] eqn:Ef |] |];
    intros E; try discriminate E; apply returned_inj in E; destruct E as [<- _];
    simpl in Hblank.
  - split; [| split; [| split]].
    + read_fields. rewrite Hblank. split; discriminate.
    + split.
      * intros _. exists f, result.
        split; [reflexivity | split; [reflexivity | split; [exact Ef |]]].
        split; read_fields; reflexivity.
      * intros _. read_fields. reflexivity.
    + read_fields. split; [discriminate |].
      intros [_ [H | (g & [= <-] & Hg)]]; [discriminate | congruence].
    + read_fields. reflexivity.
  - split; [| split; [| split]].
    + read_fields. rewrite Hblank. split; discriminate.
    + read_fields. split; [discriminate |].
      intros (g & res & [= <-] & _ & Hg & _). congruence.
    + read_fields. split; [| reflexivity]. intros _. split; [reflexivity |].
      right. exists f. auto.
    + read_fields. reflexivity.
  - split; [| split; [| split]].
    + read_fields. rewrite Hblank. split; discriminate.
    + read_fields. split; [discriminate |].
      intros (g & res & Hg & _). discriminate.
    + read_fields. split; [| reflexivity]. intros _. split; [reflexivity |].
      left. reflexivity.
    + read_fields. reflexivity.
  - split; [| split; [| split]].
    + read_fields. rewrite Hblank. split; reflexivity.
    + read_fields. split; [discriminate |].
      intros (g & res & _ & H & _). discriminate.
    + read_fields. split; [discriminate |]. intros [H _]. discriminate.
    + read_fields. reflexivity.
Qed.

(** ** The columns of a pushed record *)

Lemma Object_keys_spread (props : list (string * value)) :
  forall row : GeocodedRow,
  exists extra,
    Object_keys (spread row props) = Object_keys row ++ extra
    /\ (forall k, In k extra -> In k (map fst props) /\ ~ In k (Object_keys row)).
Proof.
  unfold spread.
  induction props as [| [k v] props IH]; intros row.
  - exists []. split; [now rewrite app_nil_r | intros k []].
  - cbn [fold_left fst snd].
    destruct (IH (prop_set k v row)) as (extra & E & Hextra).
    rewrite Object_keys_prop_set in E, Hextra.
    destruct (existsb (String.eqb k) (Object_keys row)) eqn:Ek.
    + exists extra. split; [exact E |].
      intros k' Hk'. destruct (Hextra k' Hk') as [Hin Hnot].
      split; [right; exact Hin | exact Hnot].
    + exists (k :: extra). split; [now rewrite E, <- app_assoc |].
      intros k' [<- | Hk'].
      * split; [left; reflexivity |].
        intros Hin.
        assert (existsb (String.eqb k) (Object_keys row) = true); [| congruence].
        apply existsb_exists. exists k. split; [exact Hin | apply String.eqb_refl].
      * destruct (Hextra k' Hk') as [Hin Hnot].
        split; [right; exact Hin |].
        intros H. apply Hnot. apply in_or_app. left. exact H.
Qed.

Lemma NoDup_Object_keys_spread (props : list (string * value)) :
  forall row : GeocodedRow,
    NoDup (Object_keys row) -> NoDup (Object_keys (spread row props)).
Proof.
  unfold spread.
  induction props as [| [k v] props IH]; intros row Hnd; [exact Hnd |].
  cbn [fold_left fst snd]. apply IH, NoDup_Object_keys_prop_set, Hnd.
Qed.

(** The columns of the input keep their places and, the four fields of
    the pipeline apart, their values in the record that is pushed; what
    the pipeline adds comes after them, and no column is there twice
    unless it was in the input. *)
Theorem columns_keep_their_places (getLatLng : option geocoder)
    (cols : list string) (row out : GeocodedRow) (m m' : machine) :
  enrich getLatLng cols row m = returned out m' ->
  (exists extra,
      Object_keys out = Object_keys row ++ extra
      /\ forall k, In k extra -> In k pipeline_fields /\ ~ In k (Object_keys row))
  /\ (forall key, ~ In key pipeline_fields -> prop_get key out = prop_get key row)
  /\ (NoDup (Object_keys row) -> NoDup (Object_keys out)).
Proof.
  intros E. apply enrich_enriches in E. destruct E as (props & -> & Hprops & _).
  assert (Hkeys : forall k, In k (map fst props) -> In k pipeline_fields).
  { intros k Hk. apply in_map_iff in Hk. destruct Hk as (kv & <- & Hkv).
    rewrite Forall_forall in Hprops. apply Hprops, Hkv. }
  split; [| split].
  - destruct (Object_keys_spread props row) as (extra & E & Hextra).
    exists extra. split; [exact E |].
    intros k Hk. destruct (Hextra k Hk) as [Hin Hnot]. auto.
  - intros key Hkey. apply prop_get_spread_other. auto.
  - apply NoDup_Object_keys_spread.
Qed.

(** ** The combined export of a pushed record *)

Lemma combine_lat_lon (row : GeocodedRow) :
  prop_get "lat_lon" (combine row)
  = Some (VString
            (if is_number (prop_get "latitude" row)
                && is_number (prop_get "longitude" row)
             then interpolate (prop_get "latitude" row) ++ ","
                  ++ interpolate (prop_get "longitude" row)
             else "")).
Proof. unfold combine. read_fields. reflexivity. Qed.

Lemma combine_other (key : string) (row : GeocodedRow) :
  key <> "latitude" -> key <> "longitude" -> key <> "lat_lon" ->
  prop_get key (combine row) = prop_get key row.
Proof.
  intros Hlat Hlng Hll. unfold combine, spread. cbn [fold_left fst snd].
  rewrite prop_get_set_other by exact Hll.
  rewrite prop_get_delete_other by exact Hlng.
  apply prop_get_delete_other. exact Hlat.
Qed.

(** The pipeline and the combined export together.  For a row whose call
    ended in the success callback, [lat_lon] is the two coordinates of the
    result as text with a comma between them; for every other pushed
    record whose input row did not carry two numbers of its own under
    [latitude] and [longitude], [lat_lon] is the empty string.  The status
    and the message go through unchanged. *)
Theorem combined_export_of_a_pushed_record (getLatLng : option geocoder)
    (cols : list string) (row out : GeocodedRow) (m m' : machine) :
  enrich getLatLng cols row m = returned out m' ->
  (forall f result,
      getLatLng = Some f ->
      nonempty (address cols row) = true ->
      f (length (calls m)) (address cols row) = invokes_callback result ->
      prop_get "lat_lon" (combine out)
      = Some (VString (Number_toString (lat result) ++ ","
                       ++ Number_toString (lng result))))
  /\ (~ has_status out success_status ->
      is_number (prop_get "latitude" row) && is_number (prop_get "longitude" row)
      = false ->
      prop_get "lat_lon" (combine out) = Some (VString ""))
  /\ prop_get "geocoding_status" (combine out) = prop_get "geocoding_status" out
  /\ prop_get "error_message" (combine out) = prop_get "error_message" out.
Proof.
  rewrite enrich_cases. cbv zeta. intros E.
  split; [| split; [| split; apply combine_other; discriminate]].
  - intros f result -> Ea Ef. rewrite Ea, Ef in E.
    apply returned_inj in E. destruct E as [<- _].
    rewrite combine_lat_lon. read_fields. reflexivity.
  - intros Hnot Hown. rewrite combine_lat_lon.
    assert (Hsame : prop_get "latitude" out = prop_get "latitude" row
                    /\ prop_get "longitude" out = prop_get "longitude" row).
    { unfold has_status in Hnot.
      destruct (nonempty (address cols row));
        [destruct getLatLng as [f |];
         [destruct (f (length (calls m)) (address cols row)) |] |];
        try discriminate E; apply returned_inj in E; destruct E as [<- _];
        try (split; read_fields; reflexivity).
      exfalso. apply Hnot. read_fields. reflexivity. }
    destruct Hsame as [-> ->]. rewrite Hown. reflexivity.
Qed.

(** ** The address of the preview *)

(** The address made of a row is the address cell of that row with every
    part trimmed. *)
Lemma address_of_displayParts (cols : list string) (row : GeocodedRow) :
  address cols row = join "" (map trim (displayParts cols row)).
Proof.
  unfold address, addressParts, displayParts. rewrite !join_empty.
  rewrite concat_filter_nonempty.
  induction cols as [| col cols IH]; [reflexivity |].
  simpl. rewrite IH.
  destruct (prop_get col row) as [v |]; [| reflexivity].
  destruct (ToBoolean (Some v)); reflexivity.
Qed.

(** The cells of columns the pipeline does not write are shown from the
    pushed record as they were in the row. *)
Lemma displayParts_pushed (getLatLng : option geocoder) (cols sel : list string)
    (row out : GeocodedRow) (m m' : machine) :
  enrich getLatLng cols row m = returned out m' ->
  (forall col, In col sel -> ~ In col pipeline_fields) ->
  displayParts sel out = displayParts sel row.
Proof.
  intros E Hsel. apply enrich_enriches in E. destruct E as (props & -> & Hprops & _).
  unfold displayParts. do 2 f_equal.
  apply map_ext_in. intros col Hcol. apply prop_get_spread_other.
  intros Hin. apply (Hsel col Hcol).
  apply in_map_iff in Hin. destruct Hin as (kv & <- & Hkv).
  rewrite Forall_forall in Hprops. apply Hprops, Hkv.
Qed.

(** The preview shows the pushed record, the call was made for the parsed
    row.  For the selection the run was made with, and as long as no
    selected column is one of the four fields the pipeline writes, the
    address sent to the geocoder is the address cell of the preview with
    every part trimmed, and the two are the same text when no part of the
    cell has white space at either end. *)
Theorem address_is_the_preview_trimmed (getLatLng : option geocoder)
    (cols : list string) (row out : GeocodedRow) (m m' : machine) :
  enrich getLatLng cols row m = returned out m' ->
  (forall col, In col cols -> ~ In col pipeline_fields) ->
  address cols row = join "" (map trim (displayParts cols out))
  /\ (Forall (fun part => trim part = part) (displayParts cols out) ->
      displayAddress cols out = address cols row).
Proof.
  intros E Hcols.
  rewrite (displayParts_pushed getLatLng cols cols row out m m' E Hcols).
  split; [apply address_of_displayParts |].
  intros Hfixed. rewrite address_of_displayParts. unfold displayAddress.
  rewrite (displayParts_pushed getLatLng cols cols row out m m' E Hcols).
  f_equal.
  generalize dependent (displayParts cols row). intros parts Hfixed.
  induction Hfixed as [| part parts Hpart _ IH]; [reflexivity |].
  simpl. now rewrite Hpart, <- IH.
Qed.

(** ** The button and the preview after a run *)

Lemma process_disabled_startable (st : State) :
  process_disabled st = negb (startable st) || loading st.
Proof.
  unfold process_disabled, startable.
  destruct (file st); [| reflexivity].
  destruct (addressColumns st); [reflexivity |].
  simpl. apply orb_comm.
Qed.


(** After a started run that returns, the process button is enabled again
    and the preview and the download button are rendered exactly when
    there are records; a run left suspended by a silent geocoder leaves
    the button disabled and the results hidden. *)
Theorem page_after_a_run (getLatLng : option geocoder) (r : reading) (st : State) :
  startable st = true ->
  match handleProcess getLatLng r st with
  | returned _ m =>
      process_disabled (ui m) = false
      /\ results_shown (ui m) = (0 <? length (data (ui m)))%nat
  | raised _ _ => False
  | suspended m =>
      process_disabled (ui m) = true /\ results_shown (ui m) = false
  end.
Proof.
  intros Hstart.
  assert (Hready : forall st', settings st' = settings st -> startable st' = true).
  { intros st' E. unfold settings in E. injection E as E1 E2 _ E4 _ _.
    unfold startable in *. rewrite E1, E2, E4. exact Hstart. }
  assert (Hreturned : forall st',
             settings st' = settings st -> loading st' = false ->
             process_disabled st' = false
             /\ results_shown st' = (0 <? length (data st'))%nat).
  { intros st' E Hl. rewrite process_disabled_startable, (Hready st' E), Hl.
    unfold results_shown. rewrite Hl, andb_true_r. auto. }
  rewrite (handleProcess_started _ _ _ Hstart).
  destruct r as [| message | message | rows];
    try (apply Hreturned; reflexivity).
  rewrite complete_cases.
  destruct (run_machine getLatLng rows st) as (j & _ & Hui & _).
  destruct (for_rows getLatLng (addressColumns st) (length rows) 0 rows [] (entered st))
    as [out m1 | reason m1 | m1]; cbn [machine_of] in Hui;
    pose proof (f_equal settings Hui) as Hset;
    pose proof (f_equal loading Hui) as Hload.
  - apply Hreturned; [exact Hset | reflexivity].
  - apply Hreturned; [exact Hset | reflexivity].
  - simpl in Hload.
    rewrite process_disabled_startable, (Hready (ui m1) Hset).
    unfold results_shown. rewrite Hload, andb_false_r. auto.
Qed.

(** ** The download *)

Lemma list_ascii_of_string_app (s t : string) :
  list_ascii_of_string (s ++ t) = list_ascii_of_string s ++ list_ascii_of_string t.
Proof. induction s as [| a s IH]; simpl; congruence. Qed.

Lemma string_of_list_ascii_app (l l' : list ascii) :
  string_of_list_ascii (l ++ l')
  = (string_of_list_ascii l ++ string_of_list_ascii l')%string.
Proof. induction l as [| a l IH]; simpl; congruence. Qed.

(** A name that ends with an extension [/\.csv$/i] matches loses it. *)
Lemma without_csv_extension_strips (base ext : string) :
  csv_extension ext = true -> without_csv_extension (base ++ ext) = base.
Proof.
  destruct ext as [| dot [| c [| s [| v [| x ext]]]]]; try discriminate.
  intros H. unfold csv_extension in H.
  apply andb_prop in H. destruct H as [H Hv].
  apply andb_prop in H. destruct H as [H Hs].
  apply andb_prop in H. destruct H as [Hdot Hc].
  unfold without_csv_extension.
  rewrite list_ascii_of_string_app, rev_app_distr. simpl rev at 1.
  cbn [app]. rewrite Hv, Hs, Hc, Hdot. cbn [andb].
  rewrite rev_involutive. apply string_of_list_ascii_of_string.
Qed.

(** Any other name is returned as it is. *)
Lemma without_csv_extension_keeps (file_name : string) :
  (forall base ext, file_name = (base ++ ext)%string -> csv_extension ext = false) ->
  without_csv_extension file_name = file_name.
Proof.
  intros Hnone. unfold without_csv_extension.
  destruct (rev (list_ascii_of_string file_name))
    as [| v [| s [| c [| dot front]]]] eqn:E; try reflexivity.
  match goal with |- (if ?b then _ else _) = _ => destruct b eqn:Hb end;
    [| reflexivity].
  exfalso.
  apply andb_prop in Hb. destruct Hb as [Hb Hdot].
  apply andb_prop in Hb. destruct Hb as [Hb Hc].
  apply andb_prop in Hb. destruct Hb as [Hv Hs].
  assert (Hname : file_name
                  = (string_of_list_ascii (rev front)
                     ++ String dot (String c (String s (String v ""))))%string).
  { rewrite <- (string_of_list_ascii_of_string file_name).
    rewrite <- (rev_involutive (list_ascii_of_string file_name)), E.
    simpl rev. rewrite <- !app_assoc. cbn [app].
    rewrite string_of_list_ascii_app. reflexivity. }
  specialize (Hnone _ _ Hname). unfold csv_extension in Hnone.
  rewrite Hdot, Hc, Hs, Hv in Hnone. discriminate.
Qed.

(** [without_csv_extension] takes off one extension [.csv], in any mix of
    cases, from the end of a name, and changes no other name. *)
Theorem without_csv_extension_spec (file_name : string) :
  (forall base ext,
      file_name = (base ++ ext)%string -> csv_extension ext = true ->
      without_csv_extension file_name = base)
  /\ ((forall base ext,
          file_name = (base ++ ext)%string -> csv_extension ext = false) ->
      without_csv_extension file_name = file_name).
Proof.
  split.
  - intros base ext -> Hext. apply without_csv_extension_strips, Hext.
  - apply without_csv_extension_keeps.
Qed.

(** From the download button, which is rendered only with results, the
    handler never shows its error and never changes the state: it hands
    over one record per stored record, the stored records themselves in the
    separate format, under a name that ends with [_geocoded.csv]; for a
    chosen file [base.csv] the name is [base_geocoded.csv]. *)
Theorem download_from_the_page (st : State) :
  results_shown st = true ->
  exists d,
    handleDownload st = (st, Some d)
    /\ ends_with (download_name d) "_geocoded.csv"
    /\ length (unparsed d) = length (data st)
    /\ (coordinateFormat st = separate -> unparsed d = data st)
    /\ (forall base ext,
          file st = Some {| name := base ++ ext |} ->
          csv_extension ext = true ->
          download_name d = (base ++ "_geocoded.csv")%string).
Proof.
  unfold results_shown, handleDownload. intros H.
  apply andb_prop in H. destruct H as [Hdata _].
  destruct (data st) as [| row rows] eqn:Ed; [discriminate |].
  eexists. split; [reflexivity |]. cbn [download_name unparsed].
  split; [eexists; reflexivity |].
  split; [| split].
  - unfold buildExportRows. rewrite Ed.
    destruct (coordinateFormat st); [reflexivity | apply length_map].
  - intros Hsep. unfold buildExportRows. rewrite Hsep, Ed. reflexivity.
  - intros base ext -> Hext. cbn [name].
    assert (Hfull : nonempty (base ++ ext) = true).
    { destruct ext; [discriminate |]. destruct base; reflexivity. }
    rewrite Hfull, (without_csv_extension_strips base ext Hext). reflexivity.
Qed.

(** ** The column check boxes *)

Lemma includes_filter_other (c col : string) (cols : list string) :
  String.eqb c col = false ->
  includes c (filter (fun x => negb (String.eqb x col)) cols) = includes c cols.
Proof.
  intros Hne. unfold includes.
  induction cols as [| x cols IH]; [reflexivity |].
  simpl. destruct (String.eqb_spec x col) as [-> | Hx]; simpl.
  - rewrite Hne. exact IH.
  - now rewrite IH.
Qed.

Lemma includes_filter_same (col : string) (cols : list string) :
  includes col (filter (fun x => negb (String.eqb x col)) cols) = false.
Proof.
  unfold includes.
  induction cols as [| x cols IH]; [reflexivity |].
  simpl. destruct (String.eqb_spec x col) as [-> | Hx]; simpl; [exact IH |].
  destruct (String.eqb_spec col x) as [-> | _]; [contradiction | exact IH].
Qed.

Lemma filter_absent (col : string) (cols : list string) :
  includes col cols = false ->
  filter (fun x => negb (String.eqb x col)) cols = cols.
Proof.
  unfold includes.
  induction cols as [| x cols IH]; [reflexivity |].
  simpl. intros H. apply orb_false_elim in H. destruct H as [Hx Hrest].
  rewrite String.eqb_sym, Hx. simpl. now rewrite IH.
Qed.

(** After a click on the check box of [col] that box shows what the click
    asked for and every other box shows what it showed before; nothing but
    the selection changes; the selection keeps its order, a checked column
    going to its end; and it stays free of duplicates when the click
    inverts the box, as a click on a rendered box does.  Checking a box
    and unchecking it again gives the selection back. *)
Theorem column_click (st : State) (col : string) (checked : bool) :
  (forall c,
      includes c (addressColumns (column_onChange st col checked))
      = if String.eqb c col then checked else includes c (addressColumns st))
  /\ column_onChange st col checked
     = setAddressColumns (addressColumns (column_onChange st col checked)) st
  /\ (includes col (addressColumns st) = negb checked ->
      NoDup (addressColumns st) ->
      NoDup (addressColumns (column_onChange st col checked)))
  /\ (includes col (addressColumns st) = false ->
      addressColumns (column_onChange (column_onChange st col true) col false)
      = addressColumns st).
Proof.
  split; [| split; [| split]].
  - intros c. unfold column_onChange.
    destruct checked; cbn [addressColumns setAddressColumns].
    + unfold includes. rewrite existsb_app. simpl. rewrite orb_false_r.
      destruct (String.eqb c col); [apply orb_true_r | apply orb_false_r].
    + destruct (String.eqb c col) eqn:Ec.
      * apply String.eqb_eq in Ec. subst c. apply includes_filter_same.
      * apply includes_filter_other, Ec.
  - unfold column_onChange. destruct checked; reflexivity.
  - unfold column_onChange. intros Hbox Hnd.
    destruct checked; cbn [addressColumns setAddressColumns].
    + apply NoDup_app; [exact Hnd | repeat constructor; simpl; tauto |].
      intros k Hin [<- | []].
      assert (includes col (addressColumns st) = true); [| simpl in Hbox; congruence].
      apply existsb_exists. exists col. split; [exact Hin | apply String.eqb_refl].
    + apply NoDup_filter, Hnd.
  - intros Habsent. unfold column_onChange.
    cbn [addressColumns setAddressColumns].
    rewrite filter_app. simpl. rewrite String.eqb_refl. simpl.
    rewrite app_nil_r. apply filter_absent, Habsent.
Qed.

(** ** Choosing a file *)

(** While no run is loading, choosing a file discards the results of the
    file before, whatever the reading gives: the file is the new one,
    there are no records, no success, progress 0, and so neither preview
    nor download; still nothing is loading, and the readiness of the
    geocoder, the encoding and the format stay.  The page shows an error
    exactly when the reading failed; and when it failed, or gave no
    record, the columns and the selection of the file before stay on the
    page.  (While a run is loading the file input is not disabled, and the
    run goes on to store its results.) *)
Theorem choosing_a_file_discards_results (st : State) (f : File) (r : reading) :
  loading st = false ->
  file (handleFileChange st (Some f) r) = Some f
  /\ data (handleFileChange st (Some f) r) = []
  /\ success (handleFileChange st (Some f) r) = false
  /\ progress (handleFileChange st (Some f) r) = 0%Z
  /\ results_shown (handleFileChange st (Some f) r) = false
  /\ (loading (handleFileChange st (Some f) r),
      geocoderReady (handleFileChange st (Some f) r),
      inputEncoding (handleFileChange st (Some f) r),
      coordinateFormat (handleFileChange st (Some f) r))
     = (false, geocoderReady st, inputEncoding st, coordinateFormat st)
  /\ (nonempty (error (handleFileChange st (Some f) r)) = false
      <-> exists rows, r = parse_completes rows)
  /\ ((forall first rest, r <> parse_completes (first :: rest)) ->
      columns (handleFileChange st (Some f) r) = columns st
      /\ addressColumns (handleFileChange st (Some f) r) = addressColumns st).
Proof.
  intros Hidle. unfold handleFileChange, results_shown.
  destruct r as [| message | message | [| first rest]]; cbv zeta;
    try destruct ((length (addressColumns st) =? 0)%nat
                  && (0 <? length (Object_keys first))%nat);
    cbn [file data success progress loading geocoderReady inputEncoding
         coordinateFormat setFile setError setSuccess setData setProgress
         setColumns setAddressColumns];
    rewrite ?Hidle;
    (repeat (split; [reflexivity |]));
    (split;
     [split;
      [intros H; try discriminate H; eexists; reflexivity
      | intros (rows & H); try discriminate H; reflexivity]
     | intros H; try (split; reflexivity);
       exfalso; apply (H first rest); reflexivity]).
Qed.

(** Once a file with a record of at least one column has been read, a run
    waits for nothing but the geocoder script: the preconditions hold
    exactly when the script has loaded, and hold after [script.onload]. *)
Theorem file_and_script_make_startable (st : State) (f : File)
    (first : GeocodedRow) (rest : list GeocodedRow) :
  Object_keys first <> [] ->
  startable (handleFileChange st (Some f) (parse_completes (first :: rest)))
  = geocoderReady st
  /\ startable (script_onload
                  (handleFileChange st (Some f) (parse_completes (first :: rest))))
     = true
  /\ startable (handleFileChange (script_onload st) (Some f)
                  (parse_completes (first :: rest)))
     = true.
Proof.
  intros Hcols. unfold handleFileChange, script_onload, startable. cbv zeta.
  destruct (Object_keys first) as [| c cs]; [contradiction |].
  cbn [setGeocoderReady addressColumns].
  destruct (addressColumns st) as [| a sel] eqn:Esel; simpl;
    rewrite ?Esel; repeat split.
Qed.

(** ** Changing the encoding *)

(** Changing the encoding re-reads the file and keeps the results: the
    records, the success flag, the progress and the file stay, whatever
    the reading gives.  A reading that gives a record replaces the columns
    and, whatever was selected, the selection, by the first column alone
    (the empty name when the record has no column), and clears no error; a
    failure of the reader changes nothing but the encoding, and shows no
    error. *)
Theorem changing_the_encoding (st : State) (target_value : string) (r : reading) :
  (file (inputEncoding_onChange st target_value r),
   data (inputEncoding_onChange st target_value r),
   success (inputEncoding_onChange st target_value r),
   progress (inputEncoding_onChange st target_value r),
   loading (inputEncoding_onChange st target_value r),
   geocoderReady (inputEncoding_onChange st target_value r),
   coordinateFormat (inputEncoding_onChange st target_value r))
  = (file st, data st, success st, progress st, loading st, geocoderReady st,
     coordinateFormat st)
  /\ inputEncoding (inputEncoding_onChange st target_value r) = target_value
  /\ (forall first rest,
        r = parse_completes (first :: rest) ->
        columns (inputEncoding_onChange st target_value r) = Object_keys first
        /\ addressColumns (inputEncoding_onChange st target_value r)
           = [hd "" (Object_keys first)]
        /\ error (inputEncoding_onChange st target_value r) = error st)
  /\ (r = reader_fails \/ r = parse_completes [] ->
      inputEncoding_onChange st target_value r = setInputEncoding target_value st).
Proof.
  unfold inputEncoding_onChange. cbv zeta.
  split; [| split; [| split]].
  - destruct r as [| message | message | [| first rest]]; reflexivity.
  - destruct r as [| message | message | [| first rest]]; reflexivity.
  - intros first rest ->. repeat split.
    cbn [addressColumns setAddressColumns].
    destruct (Object_keys first) as [| [| a c] cs]; reflexivity.
  - intros [-> | ->]; reflexivity.
Qed.


End Coverage.

(** * The progress on doubles *)

(** On binary64 itself, checked by computation for every run of up to 200
    rows: the reports never go down and end at 100. *)
Lemma binary64_reports_sound_up_to_200 :
  forallb (@reports_sound binary64_arith) (seq 1 200) = true.
Proof. vm_compute. reflexivity. Qed.

Lemma nondecreasing_app_l (l l' : list Z) :
  nondecreasing (l ++ l') -> nondecreasing l.
Proof.
  induction l as [| x l IH]; [easy |].
  destruct l as [| y l]; [easy |].
  intros [Hxy Hrest]. split; [exact Hxy | apply IH, Hrest].
Qed.

(** Every value of a sequence that never goes down lies between its first
    and its last. *)
Lemma nondecreasing_between (l : list Z) :
  forall x d : Z,
    nondecreasing (x :: l) ->
    Forall (fun p => (x <= p <= last (x :: l) d)%Z) (x :: l).
Proof.
  induction l as [| y l IH]; intros x d H.
  - constructor; [simpl; lia | constructor].
  - destruct H as [Hxy Hrest]. specialize (IH y d Hrest).
    change (last (x :: y :: l) d) with (last (y :: l) d).
    pose proof (Forall_inv IH) as Hy. cbv beta in Hy.
    constructor; [lia |].
    eapply Forall_impl; [| exact IH]. intros p Hp. cbv beta in Hp. lia.
Qed.

(** The reports of the first [j] rows of a run over [n] rows on doubles,
    [n] up to 200: they never go down and lie between 0 and 100. *)
Lemma binary64_reports_begin (n j : nat) :
  n <= 200 -> j <= n ->
  nondecreasing (0%Z :: map (fun k => @percent binary64_arith k n) (seq 1 j))
  /\ Forall (fun p => (0 <= p <= 100)%Z)
       (0%Z :: map (fun k => @percent binary64_arith k n) (seq 1 j)).
Proof.
  intros Hn Hj. destruct n as [| n'].
  - replace j with 0 by lia. split; [exact I |].
    constructor; [lia | constructor].
  - assert (Hok : @reports_sound binary64_arith (S n') = true).
    { apply (proj1 (forallb_forall _ _) binary64_reports_sound_up_to_200).
      apply in_seq. lia. }
    unfold reports_sound in Hok. cbv zeta in Hok.
    apply andb_prop in Hok. destruct Hok as [Hmono Hlast].
    apply nondecreasingb_sound in Hmono. apply Z.eqb_eq in Hlast.
    pose proof (nondecreasing_between _ 0%Z 0%Z Hmono) as Hall.
    unfold expected_reports in Hmono, Hlast, Hall.
    rewrite Hlast in Hall.
    assert (Hseq : seq 1 (S n') = seq 1 j ++ seq (1 + j) (S n' - j))
      by (rewrite <- seq_app; f_equal; lia).
    rewrite Hseq, map_app, app_comm_cons in Hmono, Hall.
    split.
    + eapply nondecreasing_app_l. exact Hmono.
    + apply Forall_app in Hall. exact (proj1 Hall).
Qed.

Section Doubles.

Context {JSN : JSNumber}.


(** On the doubles of the program, for a file of up to 200 records,
    whatever the file reading gives and however the geocoder behaves
    (reporting, raising or staying silent), the values passed to
    [setProgress] never go down and all lie between 0 and 100, and the
    progress the page is left with after a started run is the last of
    them. *)
Theorem progress_bounded_however_the_run_ends (getLatLng : option geocoder)
    (r : reading) (st : State) :
  (forall rows, r = parse_completes rows -> length rows <= 200) ->
  nondecreasing
    (reported (machine_of (handleProcess (JSA := binary64_arith) getLatLng r st)))
  /\ Forall (fun p => (0 <= p <= 100)%Z)
       (reported (machine_of (handleProcess (JSA := binary64_arith) getLatLng r st)))
  /\ (startable st = true ->
      progress (ui (machine_of (handleProcess (JSA := binary64_arith) getLatLng r st)))
      = last (reported (machine_of
                          (handleProcess (JSA := binary64_arith) getLatLng r st)))
          0%Z).
Proof.
  intros Hsize. destruct (startable st) eqn:Hstart.
  - rewrite (handleProcess_started (JSA := binary64_arith) _ _ _ Hstart).
    assert (Hzero : Forall (fun p => (0 <= p <= 100)%Z) [0%Z])
      by (repeat constructor; lia).
    destruct r as [| message | message | rows];
      try (split; [exact I | split; [exact Hzero | reflexivity]]).
    specialize (Hsize rows eq_refl).
    rewrite complete_cases.
    destruct (run_machine (JSA := binary64_arith) getLatLng rows st)
      as (j & Hj & _ & Hrep & Hprog & _).
    destruct (binary64_reports_begin (length rows) j Hsize Hj) as [Hmono Hall].
    assert (Hlast : forall l : list Z, last (0%Z :: l) 0%Z = last l 0%Z)
      by (intros [| z l]; reflexivity).
    destruct (for_rows (JSA := binary64_arith) getLatLng (addressColumns st)
                (length rows) 0 rows [] (entered st))
      as [out m1 | reason m1 | m1]; cbn [machine_of] in Hrep, Hprog;
      cbn [machine_of reported ui progress setLoading setSuccess setData setError];
      rewrite Hrep, Hlast;
      (split; [exact Hmono |]); (split; [exact Hall |]);
      intros _; exact Hprog.
  - destruct (handleProcess_refused (JSA := binary64_arith) getLatLng r st Hstart)
      as (message & ->).
    split; [exact I |]. split; [constructor | discriminate].
Qed.

End Doubles.

(** * The scenarios *)

#[local] Existing Instance rendered_number.

(** C1, as stated, fails: with a geocoder that raises an exception on the
    second of two rows, the run returns with no enriched record at all (the
    result of the first row is lost), the success flag unset and a
    processing error. *)
Lemma run_lost_when_geocoder_raises :
  length two_rows = 2
  /\ data (ui (machine_of
       (handleProcess (JSA := binary64_arith) (Some raises_on_second_call)
          (parse_completes two_rows) ready_page))) = []
  /\ success (ui (machine_of
       (handleProcess (JSA := binary64_arith) (Some raises_on_second_call)
          (parse_completes two_rows) ready_page))) = false
  /\ error (ui (machine_of
       (handleProcess (JSA := binary64_arith) (Some raises_on_second_call)
          (parse_completes two_rows) ready_page))) = "処理エラー: boom".
Proof. vm_compute. auto. Qed.

Lemma finds_both_responsive : responsive (Some finds_both).
Proof. intros f [= <-] n a. destruct n; exact I. Qed.

(** Scenario A satisfies the hypotheses of C1 (amended). *)
Lemma every_row_enriched_in_order_witness :
  exists m,
    handleProcess (JSA := binary64_arith) (Some finds_both)
      (parse_completes two_rows) ready_page = returned tt m
    /\ length (data (ui m)) = length two_rows
    /\ Forall2 enriches two_rows (data (ui m))
    /\ (forall i row,
          nth_error two_rows i = Some row ->
          exists out,
            nth_error (data (ui m)) i = Some out
            /\ answered (Some finds_both) (addressColumns ready_page)
                 (length (sent (Some finds_both) (addressColumns ready_page)
                            (firstn i two_rows)))
                 row out)
    /\ calls m = sent (Some finds_both) (addressColumns ready_page) two_rows
    /\ success (ui m) = true
    /\ loading (ui m) = false.
Proof.
  apply (every_row_enriched_in_order (JSA := binary64_arith)
           (Some finds_both) two_rows ready_page).
  - reflexivity.
  - exact finds_both_responsive.
Defined.

(** A ready page satisfies the hypothesis of C10. *)
Lemma empty_run_succeeds_at_zero_witness :
  exists m,
    handleProcess (JSA := binary64_arith) (Some finds_both)
      (parse_completes []) ready_page = returned tt m
    /\ data (ui m) = []
    /\ success (ui m) = true
    /\ progress (ui m) = 0%Z
    /\ reported m = [0%Z]
    /\ calls m = []
    /\ loading (ui m) = false.
Proof.
  apply (empty_run_succeeds_at_zero (JSA := binary64_arith)
           (Some finds_both) ready_page).
  reflexivity.
Defined.

(** The first render (no file, no column, geocoder not loaded) satisfies
    the hypothesis of C7. *)
Lemma no_run_without_preconditions_witness :
  exists message m,
    handleProcess (JSN := rendered_number) (JSA := binary64_arith)
      (Some finds_both) (parse_completes two_rows) initial = returned tt m
    /\ ui m = setError message initial
    /\ nonempty message = true
    /\ message = "ファイルと住所列を選択してください"
    /\ calls m = [] /\ reported m = []
    /\ data (ui m) = data initial /\ progress (ui m) = progress initial
    /\ loading (ui m) = loading initial /\ success (ui m) = success initial.
Proof.
  apply (no_run_without_preconditions (JSN := rendered_number)
           (JSA := binary64_arith) (Some finds_both) (parse_completes two_rows)
           initial).
  left. reflexivity.
Defined.

(** C9, as stated, fails: when the geocoder raises an exception, the
    promise of [geocodeAddress] is rejected. *)
Lemma geocodeAddress_rejects_when_geocoder_raises :
  geocodeAddress (Some always_raises) "東京都千代田区丸の内" at_start
  = returned (rejected "boom")
      {| ui := ready_page; calls := ["東京都千代田区丸の内"]; reported := [] |}.
Proof. reflexivity. Qed.

(** C9 (amended) at a geocoder that finds nothing: every call reports, so
    the promise resolves. *)
Lemma geocodeAddress_settles_witness :
  exists p m',
    geocodeAddress (Some finds_nothing) "東京都千代田区丸の内" at_start
    = returned p m'
    /\ exists v, p = resolved v.
Proof.
  destruct (geocodeAddress_settles (Some finds_nothing) "東京都千代田区丸の内" at_start)
    as (p & m' & E & _ & _ & _ & _ & Hresolves).
  exists p, m'. split; [exact E |].
  apply Hresolves. intros f [= <-]. exact I.
Defined.

(** ** Progress *)



(** A run over 1 to 200 records on doubles, with the preconditions met and
    a geocoder every call of which reports: the reports are the initial 0
    and the percentage after each record, they never go down, and the last
    one, which is the progress the page is left with, is 100. *)
Theorem progress_on_doubles (getLatLng : option geocoder)
    (rows : list GeocodedRow) (st : State) :
  startable st = true ->
  responsive getLatLng ->
  1 <= length rows <= 200 ->
  exists m,
    handleProcess (JSA := binary64_arith) getLatLng (parse_completes rows) st
    = returned tt m
    /\ reported m = @expected_reports binary64_arith (length rows)
    /\ nondecreasing (reported m)
    /\ last (reported m) 0%Z = 100%Z
    /\ progress (ui m) = 100%Z.
Proof.
  intros Hstart Hresp Hlen.
  destruct (handleProcess_responsive (JSA := binary64_arith) getLatLng rows st
              Hstart Hresp)
    as (out & m1 & E & _ & _ & Hrep & _ & Hprog).
  assert (Hok : @reports_sound binary64_arith (length rows) = true).
  { apply (proj1 (forallb_forall _ _) binary64_reports_sound_up_to_200).
    apply in_seq. lia. }
  unfold reports_sound in Hok. cbv zeta in Hok.
  apply andb_prop in Hok. destruct Hok as [Hmono Hlast].
  apply nondecreasingb_sound in Hmono. apply Z.eqb_eq in Hlast.
  eexists. split; [exact E |]. cbn [ui reported progress setLoading setSuccess setData].
  rewrite Hrep, Hprog. auto.
Qed.

(** Scenario A satisfies the hypotheses of [progress_on_doubles]. *)
Lemma progress_on_doubles_witness :
  exists m,
    handleProcess (JSA := binary64_arith) (Some finds_both)
      (parse_completes two_rows) ready_page = returned tt m
    /\ reported m = @expected_reports binary64_arith (length two_rows)
    /\ nondecreasing (reported m)
    /\ last (reported m) 0%Z = 100%Z
    /\ progress (ui m) = 100%Z.
Proof.
  apply (progress_on_doubles (Some finds_both) two_rows ready_page).
  - reflexivity.
  - exact finds_both_responsive.
  - simpl. lia.
Defined.

(** Scenario A on doubles: two successes, progress 50 then 100. *)
Example scenario_A :
  handleProcess (JSA := binary64_arith) (Some finds_both)
    (parse_completes two_rows) ready_page
  = returned tt
      {| ui :=
           setLoading false
             (setSuccess true
                (setData
                   [[("住所", VString "東京都千代田区丸の内");
                     ("latitude", VNumber "35"); ("longitude", VNumber "139");
                     ("geocoding_status", VString "成功")];
                    [("住所", VString "大阪府大阪市北区");
                     ("latitude", VNumber "34"); ("longitude", VNumber "135");
                     ("geocoding_status", VString "成功")]]
                   (setProgress 100 (setError "" (setLoading true ready_page)))));
         calls := ["東京都千代田区丸の内"; "大阪府大阪市北区"];
         reported := [0%Z; 50%Z; 100%Z] |}.
Proof. vm_compute. reflexivity. Qed.

(** ** Records *)

(** C2, as stated, fails: a record that comes with [latitude] and
    [longitude] columns of its own keeps them when geocoding fails, so
    that a record with the status 失敗 has both coordinates. *)
Lemma coordinates_present_on_failure :
  data (ui (machine_of
    (handleProcess (JSA := binary64_arith) (Some finds_nothing)
       (parse_completes [row_with_coordinates]) ready_page)))
  = [[("住所", VString "存在しない住所");
      ("latitude", VString "35.0");
      ("longitude", VString "139.0");
      ("geocoding_status", VString "失敗");
      ("error_message", VString "結果が見つかりません")]]
  /\ ~ record_invariant
         [("住所", VString "存在しない住所");
          ("latitude", VString "35.0");
          ("longitude", VString "139.0");
          ("geocoding_status", VString "失敗");
          ("error_message", VString "結果が見つかりません")].
Proof.
  split; [vm_compute; reflexivity |].
  intros (s & Hs & _ & Hcoords & _).
  assert (s = failure_status) as ->.
  { destruct s; vm_compute in Hs; congruence. }
  destruct Hcoords as [Hcoords _].
  assert (H : failure_status = success_status); [| discriminate H].
  apply Hcoords. split; vm_compute; discriminate.
Qed.

(** The first row of scenario A satisfies the hypotheses of C2
    (amended). *)
Lemma enriched_record_invariant_witness :
  record_invariant
    [("住所", VString "東京都千代田区丸の内");
     ("latitude", VNumber "35"); ("longitude", VNumber "139");
     ("geocoding_status", VString "成功")].
Proof.
  eapply (enriched_record_invariant (Some finds_both)
            ["住所"] (hd [] two_rows) _ at_start _).
  - reflexivity.
  - repeat split.
Defined.

(** A row with three selected text cells, one of them blank, satisfies the
    hypothesis of C3; its address is 東京都千代田区. *)
Lemma address_as_specified_witness :
  spec_address ["都道府県"; "市区町村"; "番地"] row_in_parts = "東京都千代田区"
  /\ address ["都道府県"; "市区町村"; "番地"] row_in_parts
     = spec_address ["都道府県"; "市区町村"; "番地"] row_in_parts
  /\ (nonempty (spec_address ["都道府県"; "市区町村"; "番地"] row_in_parts) = true ->
      forall f, Some finds_both = Some f ->
      calls (machine_of
               (enrich (Some finds_both)
                  ["都道府県"; "市区町村"; "番地"] row_in_parts at_start))
      = calls at_start ++ [spec_address ["都道府県"; "市区町村"; "番地"] row_in_parts]).
Proof.
  split; [reflexivity |].
  assert (H : parsed row_in_parts).
  { repeat (constructor; [eexists; reflexivity |]). constructor. }
  destruct (address_as_specified (Some finds_both)
              ["都道府県"; "市区町村"; "番地"] row_in_parts at_start H)
    as (Ha & _ & Hcall).
  split; [exact Ha | exact Hcall].
Defined.

(** C4, as stated, fails twice.  The messages are the Japanese texts of
    the source, not [address is empty] and [no result found].  And a call
    that errors by raising an exception gives no record with the status
    失敗: the run ends with no record at all and a processing error. *)
Lemma messages_are_japanese_and_a_raise_is_no_failure :
  data (ui (machine_of
    (handleProcess (JSA := binary64_arith) (Some finds_nothing)
       (parse_completes (blank_row :: two_rows)) ready_page)))
  = [ spread blank_row [("geocoding_status", VString "スキップ");
                        ("error_message", VString "住所が空です")];
      spread (nth 0 two_rows []) [("geocoding_status", VString "失敗");
                                  ("error_message", VString "結果が見つかりません")];
      spread (nth 1 two_rows []) [("geocoding_status", VString "失敗");
                                  ("error_message", VString "結果が見つかりません")] ]
  /\ String.eqb "住所が空です" "address is empty" = false
  /\ String.eqb "結果が見つかりません" "no result found" = false
  /\ data (ui (machine_of
       (handleProcess (JSA := binary64_arith) (Some always_raises)
          (parse_completes two_rows) ready_page))) = []
  /\ error (ui (machine_of
       (handleProcess (JSA := binary64_arith) (Some always_raises)
          (parse_completes two_rows) ready_page))) = "処理エラー: boom".
Proof. vm_compute. auto 6. Qed.

(** Scenario B satisfies the hypothesis of C4 (amended): the blank row is
    skipped, and the machine is untouched. *)
Lemma messages_of_skipped_and_failed_rows_witness :
  exists out m',
    enrich (Some finds_both) ["住所"] blank_row at_start
    = returned out m'
    /\ out = (if nonempty (address ["住所"] blank_row)
              then spread blank_row [("geocoding_status", VString "失敗");
                                     ("error_message", VString "結果が見つかりません")]
              else spread blank_row [("geocoding_status", VString "スキップ");
                                     ("error_message", VString "住所が空です")])
    /\ prop_get "error_message" out
       = Some (VString (if nonempty (address ["住所"] blank_row)
                        then "結果が見つかりません" else "住所が空です"))
    /\ prop_get "geocoding_status" out
       = Some (VString (if nonempty (address ["住所"] blank_row)
                        then "失敗" else "スキップ"))
    /\ (nonempty (address ["住所"] blank_row) = false -> m' = at_start).
Proof.
  apply (messages_of_skipped_and_failed_rows
           (Some finds_both) ["住所"] blank_row at_start).
  left. reflexivity.
Defined.

(** Scenario C: one row, the geocoder finds nothing. *)
Example scenario_C :
  data (ui (machine_of
    (handleProcess (JSA := binary64_arith) (Some finds_nothing)
       (parse_completes [hd [] two_rows]) ready_page)))
  = [[("住所", VString "東京都千代田区丸の内");
      ("geocoding_status", VString "失敗");
      ("error_message", VString "結果が見つかりません")]].
Proof. vm_compute. reflexivity. Qed.

(** ** Export *)

(** Scenario D, an instance of C6. *)
Lemma export_shapes_witness :
  buildExportRows combined_page = map combine (data combined_page)
  /\ prop_get "lat_lon" (combine (hd [] (data combined_page)))
     = Some (VString "35.123456,139.654321")
  /\ prop_get "latitude" (combine (hd [] (data combined_page))) = None
  /\ prop_get "longitude" (combine (hd [] (data combined_page))) = None
  /\ data (fst (handleDownload combined_page)) = data combined_page.
Proof.
  destruct (export_shapes combined_page)
    as (Hmap & Hrow & Hdata).
  destruct (Hrow (hd [] (data combined_page)))
    as (Hlat & Hlng & Hboth & _).
  split; [exact Hmap |].
  split; [exact (Hboth "35.123456" "139.654321" eq_refl eq_refl) |].
  split; [exact Hlat |].
  split; [exact Hlng | exact Hdata].
Defined.

(** Scenario D, computed: what [handleDownload] hands over. *)
Example scenario_D :
  snd (handleDownload combined_page)
  = Some {| download_name := "foo_geocoded.csv";
            unparsed := [[("住所", VString "東京都千代田区丸の内");
                          ("geocoding_status", VString "成功");
                          ("lat_lon", VString "35.123456,139.654321")]] |}.
Proof. vm_compute. reflexivity. Qed.

(** ** Seeding the selection *)

(** C8, as stated, fails: when a second file is loaded while a column is
    selected, the selection is not seeded again; it keeps 住所, which is
    not even a column of the new file. *)
Lemma selection_kept_when_second_file_loaded :
  addressColumns
    (handleFileChange ready_page (Some {| name := "bar.csv" |})
       (parse_completes [other_file_row])) = ["住所"]
  /\ columns
       (handleFileChange ready_page (Some {| name := "bar.csv" |})
          (parse_completes [other_file_row])) = ["name"; "address"].
Proof. vm_compute. auto. Qed.

(** The first file loaded on the initial page satisfies the hypothesis of
    C8 (amended). *)
Lemma selection_seeding_witness :
  (addressColumns initial = [] ->
   addressColumns (handleFileChange initial (Some {| name := "bar.csv" |})
                     (parse_completes [other_file_row])) = ["name"])
  /\ (addressColumns initial <> [] ->
      addressColumns (handleFileChange initial (Some {| name := "bar.csv" |})
                        (parse_completes [other_file_row]))
      = addressColumns initial)
  /\ addressColumns (inputEncoding_onChange ready_page "Shift_JIS"
                       (parse_completes [other_file_row])) = ["name"]
  /\ columns (handleFileChange initial (Some {| name := "bar.csv" |})
                (parse_completes [other_file_row])) = ["name"; "address"]
  /\ columns (inputEncoding_onChange ready_page "Shift_JIS"
                (parse_completes [other_file_row])) = ["name"; "address"].
Proof.
  destruct (selection_seeding initial {| name := "bar.csv" |} "Shift_JIS"
              other_file_row [] "name" ["address"] eq_refl)
    as (H1 & H2 & _ & H4 & _).
  destruct (selection_seeding ready_page {| name := "bar.csv" |} "Shift_JIS"
              other_file_row [] "name" ["address"] eq_refl)
    as (_ & _ & H3 & _ & H5).
  repeat split; assumption.
Defined.

(** ** The small functions, run *)

(** [trim] takes off Japanese white space too (U+3000), at both ends only. *)
Example trim_runs :
  trim "  　東京都 千代田区　 " = "東京都 千代田区"
  /\ trim (String (ascii_of_nat 9) " 　") = ""
  /\ trim "" = ""
  /\ trim "丸の内1-1" = "丸の内1-1".
Proof. vm_compute. auto. Qed.

(** The name of the download: the extension is taken off whatever its
    case, and only at the end. *)
Example without_csv_extension_runs :
  without_csv_extension "foo.csv" = "foo"
  /\ without_csv_extension "住所録.CSV" = "住所録"
  /\ without_csv_extension "foo.csv.txt" = "foo.csv.txt"
  /\ without_csv_extension "csv" = "csv".
Proof. vm_compute. auto. Qed.

(** Checking a second column appends it; unchecking the first leaves the
    second: the selection is in the order of the clicks. *)
Example column_onChange_runs :
  addressColumns (column_onChange ready_page "市区町村" true) = ["住所"; "市区町村"]
  /\ addressColumns
       (column_onChange (column_onChange ready_page "市区町村" true) "住所" false)
     = ["市区町村"].
Proof. vm_compute. auto. Qed.

(** The page becomes startable when the script has loaded, a file is
    chosen and a column is selected. *)
Example startable_runs :
  startable (@initial rendered_number) = false
  /\ startable (script_onload (@initial rendered_number)) = false
  /\ startable
       (handleFileChange (script_onload initial) (Some {| name := "bar.csv" |})
          (parse_completes [other_file_row])) = true
  /\ error (script_onerror (@initial rendered_number))
     = "Failed to load geocoding service".
Proof. vm_compute. auto. Qed.

(** * More of the page, on the scenarios *)

(** A ready page, two rows and a geocoder that raises on the second call:
    the run returns with an error and keeps what was there. *)
Lemma run_succeeds_or_keeps_results_witness :
  match handleProcess (JSA := binary64_arith) (Some raises_on_second_call)
          (parse_completes two_rows) ready_page with
  | returned _ m =>
      (exists rows, parse_completes two_rows = parse_completes rows
                    /\ success (ui m) = true /\ error (ui m) = ""
                    /\ length (data (ui m)) = length rows)
      \/ (nonempty (error (ui m)) = true
          /\ data (ui m) = data ready_page /\ success (ui m) = success ready_page)
  | raised _ _ => False
  | suspended m =>
      data (ui m) = data ready_page /\ success (ui m) = success ready_page
      /\ error (ui m) = ""
  end.
Proof.
  exact (run_succeeds_or_keeps_results (JSA := binary64_arith)
           (Some raises_on_second_call) (parse_completes two_rows) ready_page
           eq_refl).
Defined.

(** The same run: both addresses were sent before it was given up. *)
Lemma calls_follow_the_rows_witness :
  exists k,
    k <= length two_rows
    /\ calls (machine_of (handleProcess (JSA := binary64_arith)
                            (Some raises_on_second_call)
                            (parse_completes two_rows) ready_page))
       = sent (Some raises_on_second_call) (addressColumns ready_page)
           (firstn k two_rows)
    /\ Forall (fun a => nonempty a = true)
         (calls (machine_of (handleProcess (JSA := binary64_arith)
                               (Some raises_on_second_call)
                               (parse_completes two_rows) ready_page)))
    /\ (forall m,
          handleProcess (JSA := binary64_arith) (Some raises_on_second_call)
            (parse_completes two_rows) ready_page = returned tt m ->
          error (ui m) = "" ->
          calls m = sent (Some raises_on_second_call) (addressColumns ready_page)
                      two_rows)
    /\ (Some raises_on_second_call = None ->
        calls (machine_of (handleProcess (JSA := binary64_arith)
                             (Some raises_on_second_call)
                             (parse_completes two_rows) ready_page)) = []).
Proof.
  exact (calls_follow_the_rows (JSA := binary64_arith)
           (Some raises_on_second_call) two_rows ready_page eq_refl).
Defined.

(** The same run, of two rows, on doubles. *)
Lemma progress_bounded_however_the_run_ends_witness :
  nondecreasing
    (reported (machine_of (handleProcess (JSA := binary64_arith)
                             (Some raises_on_second_call)
                             (parse_completes two_rows) ready_page)))
  /\ Forall (fun p => (0 <= p <= 100)%Z)
       (reported (machine_of (handleProcess (JSA := binary64_arith)
                                (Some raises_on_second_call)
                                (parse_completes two_rows) ready_page)))
  /\ (startable ready_page = true ->
      progress (ui (machine_of (handleProcess (JSA := binary64_arith)
                                  (Some raises_on_second_call)
                                  (parse_completes two_rows) ready_page)))
      = last (reported (machine_of (handleProcess (JSA := binary64_arith)
                                      (Some raises_on_second_call)
                                      (parse_completes two_rows) ready_page)))
          0%Z).
Proof.
  apply (progress_bounded_however_the_run_ends (Some raises_on_second_call)
           (parse_completes two_rows) ready_page).
  intros rows [= <-]. simpl. lia.
Defined.

(** Scenario A: after the run the button is enabled and the results are
    shown. *)
Lemma page_after_a_run_witness :
  match handleProcess (JSA := binary64_arith) (Some finds_both)
          (parse_completes two_rows) ready_page with
  | returned _ m =>
      process_disabled (ui m) = false
      /\ results_shown (ui m) = (0 <? length (data (ui m)))%nat
  | raised _ _ => False
  | suspended m =>
      process_disabled (ui m) = true /\ results_shown (ui m) = false
  end.
Proof.
  exact (page_after_a_run (JSA := binary64_arith) (Some finds_both)
           (parse_completes two_rows) ready_page eq_refl).
Defined.

(** The first row of scenario A: the status is success. *)
Lemma status_tells_what_happened_witness :
  (has_status first_row_found skipped_status
   <-> forallb (fun col => blank (prop_get col (hd [] two_rows))) ["住所"] = true)
  /\ (has_status first_row_found success_status
      <-> exists f result,
            Some finds_both = Some f
            /\ nonempty (address ["住所"] (hd [] two_rows)) = true
            /\ f (length (calls at_start)) (address ["住所"] (hd [] two_rows))
               = invokes_callback result
            /\ prop_get "latitude" first_row_found = Some (VNumber (lat result))
            /\ prop_get "longitude" first_row_found = Some (VNumber (lng result)))
  /\ (has_status first_row_found failure_status
      <-> nonempty (address ["住所"] (hd [] two_rows)) = true
          /\ (Some finds_both = None
              \/ exists f,
                   Some finds_both = Some f
                   /\ f (length (calls at_start)) (address ["住所"] (hd [] two_rows))
                      = invokes_errorCallback))
  /\ status_class first_row_found
     = (if nonempty (address ["住所"] (hd [] two_rows))
        then match Some finds_both with
             | None => "bg-red-100 text-red-800"
             | Some f =>
                 match f (length (calls at_start))
                         (address ["住所"] (hd [] two_rows)) with
                 | invokes_callback _ => "bg-green-100 text-green-800"
                 | _ => "bg-red-100 text-red-800"
                 end
             end
        else "bg-yellow-100 text-yellow-800").
Proof.
  eapply (status_tells_what_happened (Some finds_both) ["住所"] (hd [] two_rows)
            first_row_found at_start _).
  reflexivity.
Defined.

(** A row with coordinate columns of its own, geocoding failed: its
    columns stay where they were and the two new ones follow. *)
Lemma columns_keep_their_places_witness :
  (exists extra,
      Object_keys row_with_coordinates_failed
      = Object_keys row_with_coordinates ++ extra
      /\ forall k, In k extra ->
                   In k pipeline_fields /\ ~ In k (Object_keys row_with_coordinates))
  /\ (forall key, ~ In key pipeline_fields ->
                  prop_get key row_with_coordinates_failed
                  = prop_get key row_with_coordinates)
  /\ (NoDup (Object_keys row_with_coordinates) ->
      NoDup (Object_keys row_with_coordinates_failed)).
Proof.
  eapply (columns_keep_their_places (Some finds_nothing) ["住所"]
            row_with_coordinates row_with_coordinates_failed at_start _).
  reflexivity.
Defined.

(** The first row of scenario A in the combined export. *)
Lemma combined_export_of_a_pushed_record_witness :
  (forall f result,
      Some finds_both = Some f ->
      nonempty (address ["住所"] (hd [] two_rows)) = true ->
      f (length (calls at_start)) (address ["住所"] (hd [] two_rows))
      = invokes_callback result ->
      prop_get "lat_lon" (combine first_row_found)
      = Some (VString (Number_toString (lat result) ++ ","
                       ++ Number_toString (lng result))))
  /\ (~ has_status first_row_found success_status ->
      is_number (prop_get "latitude" (hd [] two_rows))
      && is_number (prop_get "longitude" (hd [] two_rows)) = false ->
      prop_get "lat_lon" (combine first_row_found) = Some (VString ""))
  /\ prop_get "geocoding_status" (combine first_row_found)
     = prop_get "geocoding_status" first_row_found
  /\ prop_get "error_message" (combine first_row_found)
     = prop_get "error_message" first_row_found.
Proof.
  eapply (combined_export_of_a_pushed_record (Some finds_both) ["住所"]
            (hd [] two_rows) first_row_found at_start _).
  reflexivity.
Defined.

(** Scenario D: the download of [foo.csv] is [foo_geocoded.csv]. *)
Lemma download_from_the_page_witness :
  exists d,
    handleDownload combined_page = (combined_page, Some d)
    /\ ends_with (download_name d) "_geocoded.csv"
    /\ length (unparsed d) = length (data combined_page)
    /\ (coordinateFormat combined_page = separate ->
        unparsed d = data combined_page)
    /\ (forall base ext,
          file combined_page = Some {| name := base ++ ext |} ->
          csv_extension ext = true ->
          download_name d = (base ++ "_geocoded.csv")%string).
Proof.
  exact (download_from_the_page combined_page eq_refl).
Defined.

(** The first render, then a file whose first record has two columns. *)
Lemma file_and_script_make_startable_witness :
  startable (handleFileChange initial (Some {| name := "foo.csv" |})
               (parse_completes [other_file_row]))
  = geocoderReady initial
  /\ startable (script_onload
                  (handleFileChange initial (Some {| name := "foo.csv" |})
                     (parse_completes [other_file_row])))
     = true
  /\ startable (handleFileChange (script_onload initial)
                  (Some {| name := "foo.csv" |})
                  (parse_completes [other_file_row]))
     = true.
Proof.
  apply (file_and_script_make_startable initial {| name := "foo.csv" |}
           other_file_row []).
  discriminate.
Defined.

(** A row in three parts, geocoding failed: the preview shows the cells
    as they are, the call was made with their trimmed text. *)
Lemma address_is_the_preview_trimmed_witness :
  address ["都道府県"; "市区町村"; "番地"] row_in_parts
  = join "" (map trim (displayParts ["都道府県"; "市区町村"; "番地"]
                         row_in_parts_failed))
  /\ (Forall (fun part => trim part = part)
         (displayParts ["都道府県"; "市区町村"; "番地"] row_in_parts_failed) ->
      displayAddress ["都道府県"; "市区町村"; "番地"] row_in_parts_failed
      = address ["都道府県"; "市区町村"; "番地"] row_in_parts).
Proof.
  eapply (address_is_the_preview_trimmed (Some finds_nothing)
            ["都道府県"; "市区町村"; "番地"] row_in_parts row_in_parts_failed
            at_start _).
  - reflexivity.
  - intros col [<- | [<- | [<- | []]]] [H | [H | [H | [H | []]]]]; discriminate H.
Defined.

(** With a column the pipeline writes selected, the preview shows the
    coordinate the run stored, not the cell the call was made with. *)
Example preview_of_a_pipeline_column :
  address ["住所"; "latitude"] row_with_coordinates = "存在しない住所35.0"
  /\ displayAddress ["住所"; "latitude"]
       (spread row_with_coordinates
          [("latitude", VNumber (num "35.5")); ("longitude", VNumber (num "139.5"));
           ("geocoding_status", VString "成功")])
     = "存在しない住所35.5".
Proof. vm_compute. auto. Qed.

(** The page of scenario D, where nothing is loading, and another file. *)
Lemma choosing_a_file_discards_results_witness :
  file (handleFileChange combined_page (Some {| name := "bar.csv" |})
          (parse_completes [other_file_row]))
  = Some {| name := "bar.csv" |}
  /\ data (handleFileChange combined_page (Some {| name := "bar.csv" |})
             (parse_completes [other_file_row])) = []
  /\ success (handleFileChange combined_page (Some {| name := "bar.csv" |})
                (parse_completes [other_file_row])) = false
  /\ progress (handleFileChange combined_page (Some {| name := "bar.csv" |})
                 (parse_completes [other_file_row])) = 0%Z
  /\ results_shown (handleFileChange combined_page (Some {| name := "bar.csv" |})
                      (parse_completes [other_file_row])) = false.
Proof.
  destruct (choosing_a_file_discards_results combined_page {| name := "bar.csv" |}
              (parse_completes [other_file_row]) eq_refl)
    as (Hfile & Hdata & Hsuccess & Hprogress & Hshown & _).
  auto.
Defined.

(** The new theorems, computed on the scenarios. *)
Example more_of_the_page_runs :
  without_csv_extension "Addresses.CSV" = "Addresses"
  /\ without_csv_extension "notes.csv.txt" = "notes.csv.txt"
  /\ displayAddress ["都道府県"; "市区町村"; "番地"] row_in_parts
     = " 東京都 　千代田区  "
  /\ address ["都道府県"; "市区町村"; "番地"] row_in_parts = "東京都千代田区"
  /\ process_disabled ready_page = false
  /\ results_shown combined_page = true.
Proof. vm_compute. repeat split. Qed.
